(** * AndroidShellHolder: lifecycle of the shell on Android

    A shallow embedding of [shell/platform/android/android_shell_holder.cc].

    The holder owns a [ThreadHost] with the UI, GPU and IO threads, a
    [Shell] and a pthread key whose destructor detaches a thread from the
    Java VM.  Its methods post closures to the message loops of these
    threads.  The embedding keeps

    - the message loops as a finite map from threads to lists of pending
      tasks, in posting order;
    - the closures as the constructors of [Task], one per lambda of the
      source, each carrying what the lambda captures;
    - objects reachable through [fml::WeakPtr] in a heap, so that a weak
      pointer is tested against what is alive when the test runs;
    - [FXL_CHECK], [FXL_DCHECK] and null dereferences as crashes of an
      error monad;
    - the answers of the operating system and of the engine as an
      environment of oracles. *)

From stdpp Require Import gmap strings list fin_maps pretty.
From Stdlib Require Import ZArith.

Open Scope Z_scope.

(** ** Threads and task runners *)

(** The roles of [ThreadHost::Type]. *)
Inductive Role := Platform | UI | GPU | IO.

Global Instance Role_eq_dec : EqDecision Role.
Proof. solve_decision. Defined.

Global Instance Role_countable : Countable Role.
Proof.
  apply (inj_countable'
    (λ r, match r with Platform => 0%nat | UI => 1%nat | GPU => 2%nat | IO => 3%nat end)
    (λ n, match n with 0%nat => Platform | 1%nat => UI | 2%nat => GPU | _ => IO end)).
  by intros [].
Defined.

(** A thread is either a thread of the embedder (the Android main thread
    that constructs the holder, for one) or a thread started by a
    [ThreadHost] from a name prefix and a role. *)
Inductive ThreadId :=
  | EmbedderThread (n : N)
  | HostedThread (name_prefix : string) (role : Role).

Global Instance ThreadId_eq_dec : EqDecision ThreadId.
Proof. solve_decision. Defined.

Global Instance ThreadId_countable : Countable ThreadId.
Proof.
  apply (inj_countable'
    (λ t, match t with
          | EmbedderThread n => inl n
          | HostedThread p r => inr (p, r)
          end)
    (λ x, match x with
          | inl n => EmbedderThread n
          | inr (p, r) => HostedThread p r
          end)).
  by intros [].
Defined.

(** A task runner is a reference to the message loop of one thread. *)
Abbreviation TaskRunner := ThreadId.

(** [blink::TaskRunners], built at lines 66-72 in the order label,
    platform, gpu, ui, io. *)
Record TaskRunners := mkTaskRunners {
  label : string;
  platform_runner : TaskRunner;
  gpu_runner : TaskRunner;
  ui_runner : TaskRunner;
  io_runner : TaskRunner
}.

Definition GetPlatformTaskRunner := platform_runner.
Definition GetGPUTaskRunner := gpu_runner.
Definition GetUITaskRunner := ui_runner.
Definition GetIOTaskRunner := io_runner.

(** ** Objects behind weak pointers *)

Definition ObjId := nat.

(** [fml::WeakPtr<T>]: empty, or the identity of its target.  The target
    may have been destroyed since the pointer was taken. *)
Definition WeakPtr := option ObjId.

Definition pthread_key_t := Z.

(** [SkISize] and [Rasterizer::Screenshot]. *)
Record SkISize := mkSkISize { width : Z; height : Z }.

Definition SkISize_MakeEmpty : SkISize := mkSkISize 0 0.

Record Rasterizer_Screenshot := mkScreenshot {
  data : option (list Byte.byte);   (* sk_sp<SkData>, [None] is nullptr *)
  frame_size : SkISize
}.

(** The types of the engine that the holder passes along without
    looking inside, and the one setting it reads. *)
Class EngineTypes := {
  Settings : Type;
  enable_software_rendering : Settings → bool;
  JavaObjectWeakGlobalRef : Type;
  RunConfiguration : Type;
  ViewportMetrics : Type;
  PointerDataPacket : Type;
  ScreenshotType : Type
}.

(** ** Crashes and the state-and-error monad *)
Inductive Failure :=
  | CheckFailed (what : string)          (* FXL_CHECK or FXL_DCHECK *)
  | NullDereference (what : string)
  | DanglingDereference (what : string). (* use of a destroyed object *)

Inductive Result (A : Type) :=
  | Ok (a : A)
  | Crash (f : Failure).
Global Arguments Ok {A} a.
Global Arguments Crash {A} f.

Definition M (S A : Type) : Type := S → Result (A * S).

Definition ret {S A} (a : A) : M S A := λ s, Ok (a, s).

Definition bind {S A B} (m : M S A) (k : A → M S B) : M S B :=
  λ s, match m s with
       | Ok (a, s') => k a s'
       | Crash f => Crash f
       end.

Definition crash {S A} (f : Failure) : M S A := λ _, Crash f.
Definition get {S} : M S S := λ s, Ok (s, s).
Definition modify {S} (f : S → S) : M S unit := λ s, Ok (tt, f s).

Declare Scope holder_scope.
Delimit Scope holder_scope with holder.
Notation "x <- m ;; k" := (bind m (λ x, k))
  (at level 100, m at next level, right associativity) : holder_scope.
Notation "m ;; k" := (bind m (λ _, k))
  (at level 100, right associativity) : holder_scope.

Open Scope holder_scope.

Section Holder.

Context `{ET : EngineTypes}.

(** [PlatformViewAndroid], as constructed at lines 47-53. *)
Record PlatformViewAndroid := mkPlatformViewAndroid {
  pv_task_runners : TaskRunners;
  pv_java_object : JavaObjectWeakGlobalRef;
  pv_use_software_rendering : bool
}.

Inductive Obj :=
  | ObjPlatformView (pv : PlatformViewAndroid)
  | ObjRasterizer (runners : TaskRunners)
  | ObjEngine.

(** ** Tasks

    One constructor per lambda of the source, with its captures. *)
Inductive Task :=
  | JniExitTask (key : pthread_key_t)                         (* lines 38-40 *)
  | GpuPriorityTask                                           (* lines 87-98 *)
  | UiPriorityTask                                            (* lines 99-103 *)
  | LaunchTask (engine : WeakPtr) (config : RunConfiguration) (* lines 131-139 *)
  | ViewportTask (engine : WeakPtr) (metrics : ViewportMetrics) (* lines 149-153 *)
  | PointerTask (engine : WeakPtr)
                (packet : option PointerDataPacket).          (* lines 163-167 *)

(** ** Observable effects

    The calls that leave the holder and its tasks, in the order they are
    made. *)
Inductive Event :=
  | EvSetPriority (tid : ThreadId) (prio : Z) (rc : Z)
  | EvLogError (msg : string)
  | EvEngineRun (engine : ObjId) (config : RunConfiguration) (ok : bool)
  | EvEngineSetViewportMetrics (engine : ObjId) (metrics : ViewportMetrics)
  | EvEngineDispatchPointerDataPacket (engine : ObjId)
                                      (packet : PointerDataPacket)
  | EvShellScreenshot (type : ScreenshotType) (base64_encode : bool)
  | EvShellReset (had_shell : bool)
  | EvThreadHostReset
  | EvThreadJoined (tid : ThreadId)
  | EvDetachFromVM (tid : ThreadId)
  | EvKeyDelete (key : pthread_key_t) (rc : Z).

(** ** The world outside the holder *)
Record World := mkWorld {
  shell_count : Z;                             (* static size_t, line 28 *)
  keys : gset pthread_key_t;                   (* keys made at line 31 *)
  tls : gmap (pthread_key_t * ThreadId) Z;     (* thread-specific values *)
  queues : gmap ThreadId (list Task);          (* message loops *)
  heap : gmap ObjId Obj;                       (* live objects *)
  next_obj : ObjId;
  trace : list Event
}.

Definition set_shell_count (n : Z) (w : World) : World :=
  mkWorld n (keys w) (tls w) (queues w) (heap w) (next_obj w) (trace w).
Definition set_keys (ks : gset pthread_key_t) (w : World) : World :=
  mkWorld (shell_count w) ks (tls w) (queues w) (heap w) (next_obj w) (trace w).
Definition set_tls (t : gmap (pthread_key_t * ThreadId) Z) (w : World) : World :=
  mkWorld (shell_count w) (keys w) t (queues w) (heap w) (next_obj w) (trace w).
Definition set_queues (q : gmap ThreadId (list Task)) (w : World) : World :=
  mkWorld (shell_count w) (keys w) (tls w) q (heap w) (next_obj w) (trace w).
Definition set_heap (h : gmap ObjId Obj) (n : ObjId) (w : World) : World :=
  mkWorld (shell_count w) (keys w) (tls w) (queues w) h n (trace w).
Definition emit (e : Event) (w : World) : World :=
  mkWorld (shell_count w) (keys w) (tls w) (queues w) (heap w) (next_obj w)
          (trace w ++ [e]).

(** The world before anything ran: [shell_count] is initialised to 1. *)
Definition initial_world : World :=
  mkWorld 1 ∅ ∅ ∅ ∅ 0%nat [].

(** Modelled from the spec: [explicit operator bool] of [fml::WeakPtr]
    (not in this file): the pointer is not empty and its target is alive. *)
Definition WeakPtr_bool (w : World) (p : WeakPtr) : bool :=
  match p with
  | Some id => bool_decide (is_Some (heap w !! id))
  | None => false
  end.


(** ** The environment: what the collaborators answer *)

(** How [Shell::Create] ends: without having called the factories, after
    having called them (what they built is destroyed again), or with a
    shell. *)
Inductive CreateOutcome :=
  | AssemblyFailsEarly
  | AssemblyFailsLate
  | AssemblySucceeds.

Record Env := mkEnv {
  (* FXL_DCHECK is compiled in *)
  dchecks_enabled : bool;
  (* width of size_t on the target *)
  size_t_bits : Z;
  (* return code and key written, given the keys in use *)
  os_pthread_key_create : gset pthread_key_t → Z * pthread_key_t;
  os_pthread_setspecific : pthread_key_t → ThreadId → Z;
  os_pthread_key_delete : pthread_key_t → Z;
  (* setpriority(PRIO_PROCESS, tid, prio) *)
  os_setpriority : ThreadId → Z → Z;
  Shell_Create_outcome : TaskRunners → Settings → CreateOutcome;
  Engine_Run : RunConfiguration → bool;
  Shell_Screenshot_result : ScreenshotType → bool → Rasterizer_Screenshot
}.

Variable env : Env.

(** ** Primitives *)

Definition FXL_CHECK {S} (what : string) (cond : bool) : M S unit :=
  if cond then ret tt else crash (CheckFailed what).

Definition FXL_DCHECK {S} (what : string) (cond : bool) : M S unit :=
  if dchecks_enabled env then FXL_CHECK what cond else ret tt.

Definition FXL_LOG_ERROR (msg : string) : M World unit :=
  modify (emit (EvLogError msg)).

(** [operator->] on a [std::unique_ptr]. *)
Definition deref {S A} (what : string) (p : option A) : M S A :=
  match p with
  | Some a => ret a
  | None => crash (NullDereference what)
  end.

(** Modelled from the spec: [operator->] of [fml::WeakPtr] (not in this
    file): the target has to be alive. *)
Definition WeakPtr_deref (what : string) (p : WeakPtr) : M World ObjId :=
  λ w, match p with
       | Some id =>
           if bool_decide (is_Some (heap w !! id)) then Ok (id, w)
           else Crash (DanglingDereference what)
       | None => Crash (NullDereference what)
       end.

(** Run a computation on a part of the state. *)
Definition zoom {S T A} (proj : S → T) (upd : T → S → S) (m : M T A) : M S A :=
  λ s, match m (proj s) with
       | Ok (a, t) => Ok (a, upd t s)
       | Crash f => Crash f
       end.

(** Modelled from the spec: [TaskRunner::PostTask] (the task runner is not
    in this file).  The task goes to the back of the queue of the loop and
    the call returns; a loop that has been shut down drops the task. *)
Definition enqueue (runner : TaskRunner) (t : Task) (w : World) : World :=
  match queues w !! runner with
  | Some ts => set_queues (<[runner := ts ++ [t]]> (queues w)) w
  | None => w
  end.

Definition PostTask (runner : TaskRunner) (t : Task) : M World unit :=
  modify (enqueue runner t).

(** [fxl::MakeCopyable] wraps a move-only lambda; what runs is the lambda. *)
Definition MakeCopyable (t : Task) : Task := t.

(** Modelled from the spec:
    [fml::MessageLoop::EnsureInitializedForCurrentThread] (the message loop
    is not in this file): the calling thread gets a loop when it has none. *)
Definition EnsureInitializedForCurrentThread (self : ThreadId) : M World unit :=
  modify (λ w, match queues w !! self with
               | Some _ => w
               | None => set_queues (<[self := []]> (queues w)) w
               end).

(** [std::make_unique]: a new object with a new identity. *)
Definition make_unique (o : Obj) : M World ObjId :=
  λ w, Ok (next_obj w, set_heap (<[next_obj w := o]> (heap w)) (S (next_obj w)) w).

(** Destruction of an owned object: weak pointers to it turn empty. *)
Definition destroy (p : option ObjId) : M World unit :=
  modify (λ w, match p with
               | Some id => set_heap (delete id (heap w)) (next_obj w) w
               | None => w
               end).

(** ** ThreadHost *)

Record ThreadHost := mkThreadHost {
  platform_thread : option ThreadId;
  ui_thread : option ThreadId;
  gpu_thread : option ThreadId;
  io_thread : option ThreadId
}.

Definition ThreadHost_empty : ThreadHost := mkThreadHost None None None None.

(** A set of [ThreadHost::Type] flags; [|] is [++]. *)
Definition TypeMask := list Role.

(** Modelled from the spec: the constructor of [fml::Thread] (not in this
    file): the thread starts and runs an empty message loop. *)
Definition Thread_new (name_prefix : string) (r : Role) : M World ThreadId :=
  let tid := HostedThread name_prefix r in
  λ w, Ok (tid, set_queues (<[tid := []]> (queues w)) w).

Definition Thread_new_if (mask : TypeMask) (name_prefix : string) (r : Role)
  : M World (option ThreadId) :=
  if bool_decide (r ∈ mask)
  then (t <- Thread_new name_prefix r ;; ret (Some t))
  else ret None.

(** Modelled from the spec: the constructor of [ThreadHost] (its source is
    not in this file): one thread per requested role, each running its own
    message loop. *)
Definition ThreadHost_new (name_prefix : string) (mask : TypeMask)
  : M World ThreadHost :=
  p <- Thread_new_if mask name_prefix Platform ;;
  u <- Thread_new_if mask name_prefix UI ;;
  g <- Thread_new_if mask name_prefix GPU ;;
  i <- Thread_new_if mask name_prefix IO ;;
  ret (mkThreadHost p u g i).

(** [ThreadDestructCallback], lines 113-115; it runs on the exiting thread. *)
Definition ThreadDestructCallback (tid : ThreadId) (value : Z) : World → World :=
  emit (EvDetachFromVM tid).

(** The keys whose value on [tid] is set: their destructor, which is
    [ThreadDestructCallback] for every key made at line 31, runs when the
    thread exits. *)
Definition armed_keys (w : World) (tid : ThreadId) : list pthread_key_t :=
  filter (λ k, default 0 (tls w !! (k, tid)) ≠ 0) (elements (keys w)).

Definition run_key_destructors (tid : ThreadId) (w : World) : World :=
  foldl (λ w' k, ThreadDestructCallback tid (default 0 (tls w !! (k, tid))) w')
        w (armed_keys w tid).

(** Modelled from the spec: joining a thread of the host.  The loop is
    told to stop, what is still pending is dropped, the thread exits (the
    destructors of its thread-specific values run) and is joined. *)
Definition Thread_join (t : option ThreadId) : M World unit :=
  match t with
  | None => ret tt
  | Some tid =>
      modify (λ w,
        let w1 := set_queues (delete tid (queues w)) w in
        let w2 := run_key_destructors tid w1 in
        let w3 := set_tls (filter (λ kv, kv.1.2 ≠ tid) (tls w2)) w2 in
        emit (EvThreadJoined tid) w3)
  end.

(** Modelled from the spec: [ThreadHost::Reset] stops and joins every
    thread of the host. *)
Definition ThreadHost_Reset (h : ThreadHost) : M World ThreadHost :=
  modify (emit EvThreadHostReset) ;;
  Thread_join (platform_thread h) ;;
  Thread_join (ui_thread h) ;;
  Thread_join (gpu_thread h) ;;
  Thread_join (io_thread h) ;;
  ret ThreadHost_empty.

(** [Thread::GetTaskRunner]. *)
Definition GetTaskRunner (t : ThreadId) : TaskRunner := t.

(** ** Shell *)

Record Shell := mkShell {
  shell_task_runners : TaskRunners;
  shell_settings : Settings;
  shell_platform_view : option ObjId;     (* std::unique_ptr<PlatformView> *)
  shell_rasterizer : option ObjId;        (* std::unique_ptr<Rasterizer> *)
  shell_engine : option ObjId             (* std::unique_ptr<Engine> *)
}.

Definition Shell_GetTaskRunners (s : Shell) : TaskRunners := shell_task_runners s.
Definition Shell_GetSettings (s : Shell) : Settings := shell_settings s.

(** [Shell::GetEngine] hands out a weak pointer to the engine. *)
Definition Shell_GetEngine (s : Shell) : WeakPtr := shell_engine s.

(** The frame of the constructor: [weak_platform_view] (line 44) is
    captured by reference by the platform view factory, which writes it
    while [Shell::Create] runs. *)
Record CtorFrame := mkCtorFrame {
  weak_platform_view : WeakPtr;
  frame_world : World
}.

Definition in_frame {A} (m : M World A) : M CtorFrame A :=
  zoom frame_world (λ w f, mkCtorFrame (weak_platform_view f) w) m.

Definition CreateCallback := Shell → M CtorFrame ObjId.

(** Lines 45-56. *)
Definition on_create_platform_view (java_object : JavaObjectWeakGlobalRef)
  : CreateCallback :=
  λ shell,
    platform_view_android <-
      in_frame (make_unique (ObjPlatformView
        (mkPlatformViewAndroid
           (Shell_GetTaskRunners shell)
           java_object
           (enable_software_rendering (Shell_GetSettings shell))))) ;;
    modify (λ f, mkCtorFrame (Some platform_view_android) (frame_world f)) ;;
    ret platform_view_android.

(** Lines 58-60. *)
Definition on_create_rasterizer : CreateCallback :=
  λ shell, in_frame (make_unique (ObjRasterizer (Shell_GetTaskRunners shell))).

(** Modelled from the spec: [Shell::Create] (its source is not in this
    file).  Each factory is called exactly once during assembly; a failed
    assembly destroys what was built and yields a null shell; a successful
    one owns the platform view, the rasterizer and the engine, and keeps
    the task runners and settings it was given. *)
Definition Shell_Create (task_runners : TaskRunners) (settings : Settings)
    (on_create_platform_view on_create_rasterizer : CreateCallback)
  : M CtorFrame (option Shell) :=
  let shell := mkShell task_runners settings None None None in
  match Shell_Create_outcome env task_runners settings with
  | AssemblyFailsEarly => ret None
  | AssemblyFailsLate =>
      pv <- on_create_platform_view shell ;;
      r <- on_create_rasterizer shell ;;
      in_frame (destroy (Some r)) ;;
      in_frame (destroy (Some pv)) ;;
      ret None
  | AssemblySucceeds =>
      pv <- on_create_platform_view shell ;;
      r <- on_create_rasterizer shell ;;
      e <- in_frame (make_unique ObjEngine) ;;
      ret (Some (mkShell task_runners settings (Some pv) (Some r) (Some e)))
  end.

(** Modelled from the spec: the destructor of [Shell] destroys the engine,
    the platform view and the rasterizer it owns. *)
Definition Shell_dtor (s : Shell) : M World unit :=
  destroy (shell_engine s) ;;
  destroy (shell_platform_view s) ;;
  destroy (shell_rasterizer s).

(** Modelled from the spec: [Shell::Screenshot] (not in this file), a
    synchronous call into the shell; what it answers is up to the
    environment. *)
Definition Shell_Screenshot (s : Shell) (type : ScreenshotType)
    (base64_encode : bool) : M World Rasterizer_Screenshot :=
  modify (emit (EvShellScreenshot type base64_encode)) ;;
  ret (Shell_Screenshot_result env type base64_encode).

(** ** Operating system calls *)

Definition pthread_key_create : M World (Z * pthread_key_t) :=
  λ w, let '(rc, key) := os_pthread_key_create env (keys w) in
       Ok ((rc, key),
           if bool_decide (rc = 0) then set_keys ({[key]} ∪ keys w) w else w).

Definition pthread_setspecific (tid : ThreadId) (key : pthread_key_t) (value : Z)
  : M World Z :=
  let rc := os_pthread_setspecific env key tid in
  λ w, Ok (rc,
           if bool_decide (rc = 0)
           then set_tls (<[(key, tid) := value]> (tls w)) w else w).

Definition pthread_key_delete (key : pthread_key_t) : M World Z :=
  let rc := os_pthread_key_delete env key in
  λ w, Ok (rc,
           emit (EvKeyDelete key rc)
             (if bool_decide (rc = 0) then set_keys (keys w ∖ {[key]}) w else w)).

Definition PRIO_PROCESS : Z := 0.

Definition setpriority (which : Z) (tid : ThreadId) (prio : Z) : M World Z :=
  let rc := os_setpriority env tid prio in
  modify (emit (EvSetPriority tid prio rc)) ;; ret rc.

(** ** The holder *)

Record AndroidShellHolder := mkAndroidShellHolder {
  settings_ : Settings;
  java_object_ : JavaObjectWeakGlobalRef;
  platform_view_ : WeakPtr;
  thread_host_ : ThreadHost;
  shell_ : option Shell;                   (* std::unique_ptr<Shell> *)
  is_valid_ : bool;
  thread_destruct_key_ : pthread_key_t
}.

(** [shell_count++] at line 29. *)
Definition next_shell_count : M World Z :=
  λ w, Ok (shell_count w,
           set_shell_count ((shell_count w + 1) mod 2 ^ size_t_bits env) w).

(** The constructor, lines 24-105, run on the thread [self]. *)
Definition AndroidShellHolder_new (self : ThreadId) (settings : Settings)
    (java_object : JavaObjectWeakGlobalRef) : M World AndroidShellHolder :=
  n <- next_shell_count ;;
  let thread_label : string := pretty n in
  kc <- pthread_key_create ;;
  let thread_destruct_key := kc.2 in
  FXL_CHECK "pthread_key_create" (bool_decide (kc.1 = 0)) ;;
  thread_host <- ThreadHost_new thread_label ([UI] ++ [GPU] ++ [IO]) ;;
  (* Detach from JNI when the UI and GPU threads exit. *)
  let jni_exit_task := JniExitTask thread_destruct_key in
  ui <- deref "ui_thread" (ui_thread thread_host) ;;
  PostTask (GetTaskRunner ui) jni_exit_task ;;
  gpu <- deref "gpu_thread" (gpu_thread thread_host) ;;
  PostTask (GetTaskRunner gpu) jni_exit_task ;;
  EnsureInitializedForCurrentThread self ;;
  io <- deref "io_thread" (io_thread thread_host) ;;
  let task_runners :=
    mkTaskRunners thread_label self (GetTaskRunner gpu) (GetTaskRunner ui)
                  (GetTaskRunner io) in
  created <-
    (λ w, match Shell_Create task_runners settings
                  (on_create_platform_view java_object) on_create_rasterizer
                  (mkCtorFrame None w) with
          | Ok (shell, f) => Ok ((shell, weak_platform_view f), frame_world f)
          | Crash e => Crash e
          end) ;;
  let shell := created.1 in
  let platform_view := created.2 in
  w <- get ;;
  FXL_DCHECK "platform_view_" (WeakPtr_bool w platform_view) ;;
  let is_valid := bool_decide (shell ≠ None) in
  (if is_valid then
     PostTask (GetGPUTaskRunner task_runners) GpuPriorityTask ;;
     PostTask (GetUITaskRunner task_runners) UiPriorityTask
   else ret tt) ;;
  ret (mkAndroidShellHolder settings java_object platform_view thread_host
                            shell is_valid thread_destruct_key).

(** The state a method runs in: the holder and the world. *)
Record State := mkState {
  this : AndroidShellHolder;
  world : World
}.

Definition in_world {A} (m : M World A) : M State A :=
  zoom world (λ w s, mkState (this s) w) m.

Definition set_shell_ (sh : option Shell) (s : State) : State :=
  let h := this s in
  mkState (mkAndroidShellHolder (settings_ h) (java_object_ h) (platform_view_ h)
             (thread_host_ h) sh (is_valid_ h) (thread_destruct_key_ h))
          (world s).

Definition set_thread_host_ (th : ThreadHost) (s : State) : State :=
  let h := this s in
  mkState (mkAndroidShellHolder (settings_ h) (java_object_ h) (platform_view_ h)
             th (shell_ h) (is_valid_ h) (thread_destruct_key_ h))
          (world s).

(** [shell_.reset()]. *)
Definition shell_reset : M State unit :=
  s <- get ;;
  in_world (modify (emit (EvShellReset (bool_decide (shell_ (this s) ≠ None))))) ;;
  match shell_ (this s) with
  | Some sh => in_world (Shell_dtor sh)
  | None => ret tt
  end ;;
  modify (set_shell_ None).

(** The destructor, lines 107-111. *)
Definition AndroidShellHolder_delete : M State unit :=
  shell_reset ;;
  s <- get ;;
  th <- in_world (ThreadHost_Reset (thread_host_ (this s))) ;;
  modify (set_thread_host_ th) ;;
  rc <- in_world (pthread_key_delete (thread_destruct_key_ (this s))) ;;
  FXL_CHECK "pthread_key_delete" (bool_decide (rc = 0)).

(** Lines 117-119. *)
Definition IsValid : M State bool :=
  s <- get ;; ret (is_valid_ (this s)).

(** Lines 121-123. *)
Definition GetSettings : M State Settings :=
  s <- get ;; ret (settings_ (this s)).

(** [shell_->]. *)
Definition shell_deref : M State Shell :=
  s <- get ;; deref "shell_" (shell_ (this s)).

(** Lines 125-140. *)
Definition Launch (config : RunConfiguration) : M State unit :=
  valid <- IsValid ;;
  if negb valid then ret tt
  else
    shell <- shell_deref ;;
    in_world (PostTask (GetUITaskRunner (Shell_GetTaskRunners shell))
                (MakeCopyable (LaunchTask (Shell_GetEngine shell) config))).

(** Lines 142-154. *)
Definition SetViewportMetrics (metrics : ViewportMetrics) : M State unit :=
  valid <- IsValid ;;
  if negb valid then ret tt
  else
    shell <- shell_deref ;;
    in_world (PostTask (GetUITaskRunner (Shell_GetTaskRunners shell))
                (ViewportTask (Shell_GetEngine shell) metrics)).

(** Lines 156-168.  The packet is a [std::unique_ptr], possibly null. *)
Definition DispatchPointerDataPacket (packet : option PointerDataPacket)
  : M State unit :=
  valid <- IsValid ;;
  if negb valid then ret tt
  else
    shell <- shell_deref ;;
    in_world (PostTask (GetUITaskRunner (Shell_GetTaskRunners shell))
                (MakeCopyable (PointerTask (Shell_GetEngine shell) packet))).

(** Lines 170-177. *)
Definition Screenshot (type : ScreenshotType) (base64_encode : bool)
  : M State Rasterizer_Screenshot :=
  valid <- IsValid ;;
  if negb valid then ret (mkScreenshot None SkISize_MakeEmpty)
  else
    shell <- shell_deref ;;
    in_world (Shell_Screenshot shell type base64_encode).

(** Lines 179-182. *)
Definition GetPlatformView : M State WeakPtr :=
  s <- get ;;
  FXL_DCHECK "platform_view_" (WeakPtr_bool (world s) (platform_view_ (this s))) ;;
  ret (platform_view_ (this s)).

(** ** Running tasks *)

(** The body of each lambda, run on the thread [tid] that owns the loop
    ([gettid()] is [tid]). *)
Definition run_task (tid : ThreadId) (t : Task) : M World unit :=
  match t with
  | JniExitTask key =>
      rc <- pthread_setspecific tid key 1 ;;
      FXL_CHECK "pthread_setspecific" (bool_decide (rc = 0))
  | GpuPriorityTask =>
      rc <- setpriority PRIO_PROCESS tid (-5) ;;
      if bool_decide (rc ≠ 0) then
        rc' <- setpriority PRIO_PROCESS tid (-2) ;;
        if bool_decide (rc' ≠ 0)
        then FXL_LOG_ERROR "Failed to set GPU task runner priority"
        else ret tt
      else ret tt
  | UiPriorityTask =>
      rc <- setpriority PRIO_PROCESS tid (-1) ;;
      if bool_decide (rc ≠ 0)
      then FXL_LOG_ERROR "Failed to set UI task runner priority"
      else ret tt
  | LaunchTask engine config =>
      w <- get ;;
      if WeakPtr_bool w engine then
        e <- WeakPtr_deref "engine" engine ;;
        let ok := Engine_Run env config in
        modify (emit (EvEngineRun e config ok)) ;;
        if negb ok
        then FXL_LOG_ERROR "Could not launch engine in configuration."
        else ret tt
      else ret tt
  | ViewportTask engine metrics =>
      w <- get ;;
      if WeakPtr_bool w engine then
        e <- WeakPtr_deref "engine" engine ;;
        modify (emit (EvEngineSetViewportMetrics e metrics))
      else ret tt
  | PointerTask engine packet =>
      w <- get ;;
      if WeakPtr_bool w engine then
        e <- WeakPtr_deref "engine" engine ;;
        p <- deref "packet" packet ;;
        modify (emit (EvEngineDispatchPointerDataPacket e p))
      else ret tt
  end.

(** One turn of the message loop of [tid]: the oldest pending task is
    taken off the queue and run. *)
Definition run_next_task (tid : ThreadId) : M World unit :=
  w <- get ;;
  match queues w !! tid with
  | Some (t :: rest) =>
      modify (set_queues (<[tid := rest]> (queues w))) ;;
      run_task tid t
  | _ => ret tt
  end.

(** The loop of [tid] runs until its queue is empty, or [fuel] turns. *)
Fixpoint run_loop (fuel : nat) (tid : ThreadId) : M World unit :=
  match fuel with
  | O => ret tt
  | S fuel' =>
      w <- get ;;
      match queues w !! tid with
      | Some (_ :: _) => run_next_task tid ;; run_loop fuel' tid
      | _ => ret tt
      end
  end.

(** ** Histories: calls on the holder interleaved with loop turns *)

Inductive Call :=
  | CallIsValid
  | CallGetSettings
  | CallLaunch (config : RunConfiguration)
  | CallSetViewportMetrics (metrics : ViewportMetrics)
  | CallDispatchPointerDataPacket (packet : option PointerDataPacket)
  | CallScreenshot (type : ScreenshotType) (base64_encode : bool)
  | CallGetPlatformView.

Inductive Response :=
  | RespBool (b : bool)
  | RespSettings (s : Settings)
  | RespVoid
  | RespScreenshot (s : Rasterizer_Screenshot)
  | RespPlatformView (p : WeakPtr).

Definition call (c : Call) : M State Response :=
  match c with
  | CallIsValid => b <- IsValid ;; ret (RespBool b)
  | CallGetSettings => s <- GetSettings ;; ret (RespSettings s)
  | CallLaunch config => Launch config ;; ret RespVoid
  | CallSetViewportMetrics metrics => SetViewportMetrics metrics ;; ret RespVoid
  | CallDispatchPointerDataPacket packet =>
      DispatchPointerDataPacket packet ;; ret RespVoid
  | CallScreenshot type b => s <- Screenshot type b ;; ret (RespScreenshot s)
  | CallGetPlatformView => p <- GetPlatformView ;; ret (RespPlatformView p)
  end.

Fixpoint calls (cs : list Call) : M State (list Response) :=
  match cs with
  | [] => ret []
  | c :: cs' => r <- call c ;; rs <- calls cs' ;; ret (r :: rs)
  end.

(** A step of the system while the holder is alive: a call on the holder
    from its owner, or a turn of some message loop. *)
Inductive Step :=
  | StepCall (c : Call)
  | StepLoop (tid : ThreadId).

Definition step (st : Step) : M State unit :=
  match st with
  | StepCall c => call c ;; ret tt
  | StepLoop tid => in_world (run_next_task tid)
  end.

Fixpoint steps (sts : list Step) : M State unit :=
  match sts with
  | [] => ret tt
  | st :: sts' => step st ;; steps sts'
  end.

End Holder.

Global Instance demo_types : EngineTypes := {|
  Settings := bool;
  enable_software_rendering := λ b, b;
  JavaObjectWeakGlobalRef := nat;
  RunConfiguration := string;
  ViewportMetrics := Z * Z;
  PointerDataPacket := list Z;
  ScreenshotType := nat
|}.

Definition demo_env (dchecks : bool) (outcome : CreateOutcome)
    (prio : ThreadId → Z → Z) : Env :=
  mkEnv dchecks 64
        (λ ks, (0, 7))
        (λ _ _, 0)
        (λ _, 0)
        prio
        (λ _ _, outcome)
        (λ _, true)
        (λ _ _, mkScreenshot (Some []) (mkSkISize 2 3)).

Definition main_thread : ThreadId := EmbedderThread 0.

(** A holder that was never constructed, as a default. *)
Definition no_state : State :=
  mkState (mkAndroidShellHolder true 0%nat None ThreadHost_empty None false 0)
          initial_world.

(** The state right after a construction on the main thread of a fresh
    process, in the environment [e]. *)
Definition demo_new (e : Env) : State :=
  match AndroidShellHolder_new e main_thread true 5%nat initial_world with
  | Ok (h, w) => mkState h w
  | Crash _ => no_state
  end.

(** A debug build where the assembly succeeds and every [setpriority] is
    rejected. *)
Definition demo_valid_env : Env :=
  demo_env true AssemblySucceeds (λ _ _, -1).

(** A release build where the assembly fails after the factories ran. *)
Definition demo_invalid_env : Env :=
  demo_env false AssemblyFailsLate (λ _ _, 0).

Definition demo_valid_state : State :=
  Eval vm_compute in demo_new demo_valid_env.
Definition demo_invalid_state : State :=
  Eval vm_compute in demo_new demo_invalid_env.

(** A history on the valid holder: a launch, then three turns of the UI
    loop, which run the thread-exit task, the priority task and the launch
    task. *)
Definition demo_steps : list Step :=
  [StepCall (CallLaunch "main");
   StepLoop (HostedThread "1" UI);
   StepLoop (HostedThread "1" UI);
   StepLoop (HostedThread "1" UI)].

Definition demo_after_steps : State :=
  Eval vm_compute in
    match steps demo_valid_env demo_steps demo_valid_state with
    | Ok (_, s) => s
    | Crash _ => no_state
    end.

Definition demo_calls : list Call :=
  [CallLaunch "main";
   CallSetViewportMetrics (800, 600);
   CallDispatchPointerDataPacket (Some [1; 2]);
   CallScreenshot 0%nat true;
   CallIsValid].

(** A second holder, constructed on the main thread after the history
    [demo_steps] of the first. *)
Definition demo_second_state : State :=
  Eval vm_compute in
    match AndroidShellHolder_new demo_valid_env main_thread false 6%nat
            (world demo_after_steps) with
    | Ok (h, w) => mkState h w
    | Crash _ => no_state
    end.


Definition demo_ui : ThreadId := HostedThread "1" UI.
Definition demo_gpu : ThreadId := HostedThread "1" GPU.
Definition demo_io : ThreadId := HostedThread "1" IO.


(** ** Vocabulary of the statements *)

(** The task runners the constructor assembles at lines 66-72 when it
    runs on [self] in the world [w]. *)
Definition ctor_runners `{ET : EngineTypes} (self : ThreadId) (w : World)
  : TaskRunners :=
  let thread_label := pretty (shell_count w) in
  mkTaskRunners thread_label self (HostedThread thread_label GPU)
                (HostedThread thread_label UI) (HostedThread thread_label IO).

(** What a completed construction leaves behind. *)
Record constructed `{ET : EngineTypes} (env : Env) (self : ThreadId)
    (settings : Settings) (java_object : JavaObjectWeakGlobalRef)
    (w : World) (h : AndroidShellHolder) (w' : World) : Prop := {
  c_settings : settings_ h = settings;
  c_java_object : java_object_ h = java_object;
  c_thread_host :
    thread_host_ h =
    mkThreadHost None (Some (ui_runner (ctor_runners self w)))
                 (Some (gpu_runner (ctor_runners self w)))
                 (Some (io_runner (ctor_runners self w)));
  c_key : os_pthread_key_create env (keys w) = (0, thread_destruct_key_ h);
  c_is_valid : is_valid_ h = bool_decide (shell_ h ≠ None);
  c_outcome :
    is_valid_ h = true ↔
    Shell_Create_outcome env (ctor_runners self w) settings = AssemblySucceeds;
  c_ui_queue :
    queues w' !! ui_runner (ctor_runners self w) =
    Some (JniExitTask (thread_destruct_key_ h)
          :: if is_valid_ h then [UiPriorityTask] else []);
  c_gpu_queue :
    queues w' !! gpu_runner (ctor_runners self w) =
    Some (JniExitTask (thread_destruct_key_ h)
          :: if is_valid_ h then [GpuPriorityTask] else []);
  c_io_queue : queues w' !! io_runner (ctor_runners self w) = Some [];
  c_shell :
    is_valid_ h = true →
    ∃ pv r e,
      shell_ h = Some (mkShell (ctor_runners self w) settings
                               (Some pv) (Some r) (Some e)) ∧
      platform_view_ h = Some pv ∧
      heap w' !! pv =
        Some (ObjPlatformView
                (mkPlatformViewAndroid (ctor_runners self w) java_object
                   (enable_software_rendering settings))) ∧
      heap w' !! r = Some (ObjRasterizer (ctor_runners self w)) ∧
      heap w' !! e = Some ObjEngine;
  c_dchecked : dchecks_enabled env = true → is_valid_ h = true;
  c_trace : trace w' = trace w
}.

(** The threads a [ThreadHost] manages. *)
Definition hosted_threads (th : ThreadHost) : list ThreadId :=
  omap id [platform_thread th; ui_thread th; gpu_thread th; io_thread th].

Definition is_jni_exit_task `{ET : EngineTypes} (t : Task) : bool :=
  match t with JniExitTask _ => true | _ => false end.

Definition is_priority_task `{ET : EngineTypes} (t : Task) : bool :=
  match t with GpuPriorityTask | UiPriorityTask => true | _ => false end.

(** The engine handle a task captures, for the tasks that call into the
    engine. *)
Definition task_engine `{ET : EngineTypes} (t : Task) : option WeakPtr :=
  match t with
  | LaunchTask engine _ | ViewportTask engine _ | PointerTask engine _ =>
      Some engine
  | _ => None
  end.

(** The world after [PostTask] on a loop that holds [ts]. *)
Definition posted `{ET : EngineTypes} (runner : TaskRunner) (ts : list Task)
    (t : Task) (s : State) : State :=
  mkState (this s)
          (set_queues (<[runner := ts ++ [t]]> (queues (world s))) (world s)).

(** The world [w] after the events [evs], nothing else changed. *)
Definition emits `{ET : EngineTypes} (evs : list Event) (w : World) : World :=
  mkWorld (shell_count w) (keys w) (tls w) (queues w) (heap w) (next_obj w)
          (trace w ++ evs).

(** The events of a thread that exits and is joined. *)
Definition is_thread_exit_event `{ET : EngineTypes} (e : Event) : bool :=
  match e with
  | EvThreadJoined _ | EvDetachFromVM _ => true
  | _ => false
  end.

(** The threads joined, in order. *)
Definition joined_threads `{ET : EngineTypes} (tr : list Event) : list ThreadId :=
  omap (λ e, match e with EvThreadJoined t => Some t | _ => None end) tr.

(** The objects a shell owns. *)
Definition shell_objects `{ET : EngineTypes} (sh : Shell) : list ObjId :=
  omap id [shell_engine sh; shell_platform_view sh; shell_rasterizer sh].

(** The pending tasks of a thread; none when its loop is gone. *)
Definition pending `{ET : EngineTypes} (w : World) (t : ThreadId) : list Task :=
  default [] (queues w !! t).

(** The configurations [Engine::Run] was called with, in order. *)
Definition engine_runs `{ET : EngineTypes} (tr : list Event)
  : list RunConfiguration :=
  omap (λ e, match e with EvEngineRun _ c _ => Some c | _ => None end) tr.

(** The priority levels [tid] asked for with [setpriority], in order. *)
Definition priority_attempts `{ET : EngineTypes} (tid : ThreadId)
    (tr : list Event) : list Z :=
  omap (λ e, match e with
             | EvSetPriority t p _ => if decide (t = tid) then Some p else None
             | _ => None
             end) tr.

(** The states the holder can be in between its construction and its
    destruction: what the constructor returns, then calls on the holder
    and turns of the message loops in any order. *)
Inductive reachable `{ET : EngineTypes} (env : Env) : State → Prop :=
  | reachable_new self settings java_object w h w' :
      AndroidShellHolder_new env self settings java_object w = Ok (h, w') →
      reachable env (mkState h w')
  | reachable_step s st s' :
      reachable env s →
      step env st s = Ok (tt, s') →
      reachable env s'.

(** What a call answers when every guarded operation does nothing. *)
Definition noop_response `{ET : EngineTypes} (h : AndroidShellHolder) (c : Call)
  : Response :=
  match c with
  | CallIsValid => RespBool (is_valid_ h)
  | CallGetSettings => RespSettings (settings_ h)
  | CallLaunch _ | CallSetViewportMetrics _
  | CallDispatchPointerDataPacket _ => RespVoid
  | CallScreenshot _ _ => RespScreenshot (mkScreenshot None SkISize_MakeEmpty)
  | CallGetPlatformView => RespPlatformView (platform_view_ h)
  end.

(** The operations that start with the [IsValid] guard, and the two
    getters that only read a member. *)
Definition guarded_or_getter `{ET : EngineTypes} (c : Call) : bool :=
  match c with
  | CallGetPlatformView => false
  | _ => true
  end.

(** The message loop of the current thread is created when missing; the
    loops that exist keep their queues. *)
Definition ensure_loop `{ET : EngineTypes} (self : ThreadId) (q : gmap ThreadId (list Task))
  : gmap ThreadId (list Task) :=
  match q !! self with Some _ => q | None => <[self := []]> q end.

(** A step leaves the holder, the heap and the set of message loops as
    they are. *)
Definition same_frame `{ET : EngineTypes} (s s' : State) : Prop :=
  this s' = this s ∧
  heap (world s') = heap (world s) ∧
  dom (queues (world s')) = dom (queues (world s)).

(** [is_valid_] tells whether there is a shell; with debug checks compiled
    in, only valid holders get past line 82; a valid holder owns a shell
    whose engine and platform view are alive and whose UI loop runs, and
    [platform_view_] is the handle taken by the factory at line 54. *)
Definition holder_inv `{ET : EngineTypes} (env : Env) (s : State) : Prop :=
  is_valid_ (this s) = bool_decide (shell_ (this s) ≠ None) ∧
  (dchecks_enabled env = true → is_valid_ (this s) = true) ∧
  (is_valid_ (this s) = true →
   ∃ sh pv e,
     shell_ (this s) = Some sh ∧
     shell_engine sh = Some e ∧
     is_Some (heap (world s) !! e) ∧
     shell_platform_view sh = Some pv ∧
     platform_view_ (this s) = Some pv ∧
     heap (world s) !! pv =
       Some (ObjPlatformView
               (mkPlatformViewAndroid (shell_task_runners sh)
                  (java_object_ (this s))
                  (enable_software_rendering (settings_ (this s))))) ∧
     ui_thread (thread_host_ (this s)) = Some (ui_runner (shell_task_runners sh)) ∧
     queues (world s) !! ui_runner (shell_task_runners sh) ≠ None).

(** What joining the thread [t] does to the world. *)
Definition joined `{ET : EngineTypes} (t : option ThreadId) (w w' : World) : Prop :=
  heap w' = heap w ∧
  keys w' = keys w ∧
  queues w' = match t with
              | Some tid => delete tid (queues w)
              | None => queues w
              end ∧
  ∃ evs,
    trace w' = trace w ++ evs ∧
    Forall is_thread_exit_event evs ∧
    joined_threads evs = option_list t.

(** What a completed construction leaves of the world it started in: the
    counter of shells moved on by one, one more key in use, the
    thread-specific values as they were, a loop for the calling thread, the
    loops of all threads but the three new workers as they were, the
    objects that existed as they were, and, on an invalid holder, a
    platform view handle that is not alive. *)
Record constructed_frame `{ET : EngineTypes} (env : Env) (self : ThreadId)
    (w : World) (h : AndroidShellHolder) (w' : World) : Prop := {
  cf_shell_count :
    shell_count w' = (shell_count w + 1) mod 2 ^ size_t_bits env;
  cf_keys : keys w' = {[thread_destruct_key_ h]} ∪ keys w;
  cf_tls : tls w' = tls w;
  cf_self_loop : queues w' !! self ≠ None;
  cf_other_queues :
    ∀ t, t ∉ hosted_threads (thread_host_ h) →
         t ≠ self ∨ queues w !! t ≠ None →
         queues w' !! t = queues w !! t;
  cf_new_self_loop :
    self ∉ hosted_threads (thread_host_ h) →
    queues w !! self = None → queues w' !! self = Some [];
  cf_heap : ∀ id, (id < next_obj w)%nat → heap w' !! id = heap w !! id;
  cf_invalid_handle :
    is_valid_ h = false → WeakPtr_bool w' (platform_view_ h) = false
}.

(** The task a call posts on a valid holder whose shell is [sh]; none for
    the calls that do not post. *)
Definition call_task `{ET : EngineTypes} (sh : Shell) (c : Call) : option Task :=
  match c with
  | CallLaunch config => Some (LaunchTask (Shell_GetEngine sh) config)
  | CallSetViewportMetrics metrics =>
      Some (ViewportTask (Shell_GetEngine sh) metrics)
  | CallDispatchPointerDataPacket packet =>
      Some (PointerTask (Shell_GetEngine sh) packet)
  | _ => None
  end.

(** The call into the shell a call on a valid holder makes within the
    call; none for the calls that only post or read. *)
Definition call_event `{ET : EngineTypes} (c : Call) : option Event :=
  match c with
  | CallScreenshot type base64_encode =>
      Some (EvShellScreenshot type base64_encode)
  | _ => None
  end.

(** How often [tid] detached from the VM. *)
Definition is_detach_of `{ET : EngineTypes} (tid : ThreadId) (e : Event) : bool :=
  match e with
  | EvDetachFromVM t => bool_decide (t = tid)
  | _ => false
  end.

Definition detaches `{ET : EngineTypes} (tid : ThreadId) (tr : list Event) : nat :=
  length (filter (is_detach_of tid) tr).

Section Proofs.

Context `{ET : EngineTypes} (env : Env).

(** *** The monad and the primitives *)

Lemma PostTask_Some runner t w ts :
  queues w !! runner = Some ts →
  PostTask runner t w = Ok (tt, set_queues (<[runner := ts ++ [t]]> (queues w)) w).
Proof. intros H. unfold PostTask, modify, enqueue. by rewrite H. Qed.

Lemma ThreadHost_new_workers p w :
  ThreadHost_new p ([UI] ++ [GPU] ++ [IO]) w =
  Ok (mkThreadHost None (Some (HostedThread p UI)) (Some (HostedThread p GPU))
                   (Some (HostedThread p IO)),
      set_queues (<[HostedThread p IO := []]>
                 (<[HostedThread p GPU := []]>
                 (<[HostedThread p UI := []]> (queues w)))) w).
Proof. destruct w. reflexivity. Qed.

Lemma EnsureInitialized_eq self w :
  EnsureInitializedForCurrentThread self w =
  Ok (tt, set_queues (ensure_loop self (queues w)) w).
Proof.
  destruct w. unfold EnsureInitializedForCurrentThread, modify, ensure_loop.
  simpl. by destruct (_ !! self).
Qed.

Lemma lookup_ensure_loop_Some self q t ts :
  q !! t = Some ts → ensure_loop self q !! t = Some ts.
Proof.
  intros H. unfold ensure_loop. destruct (q !! self) eqn:Hs; [done|].
  rewrite lookup_insert_ne; [done|]. intros ->. congruence.
Qed.

Ltac mstep := unfold bind at 1; simpl.
Ltac queue_lookup :=
  repeat first
    [ rewrite lookup_insert_eq
    | rewrite lookup_insert_ne by done
    | erewrite lookup_ensure_loop_Some by (by simplify_map_eq) ];
  done.
Ltac post_step :=
  unfold bind at 1; erewrite PostTask_Some;
  [ | simpl; repeat (erewrite lookup_ensure_loop_Some; [reflexivity|]);
      simplify_map_eq; reflexivity ]; simpl.

(** *** The constructor *)

Lemma AndroidShellHolder_new_cases self settings java w :
  let outcome := Shell_Create_outcome env (ctor_runners self w) settings in
  match AndroidShellHolder_new env self settings java w with
  | Ok (h, w') =>
      constructed env self settings java w h w'
  | Crash f =>
      (f = CheckFailed "pthread_key_create" ∧
       (os_pthread_key_create env (keys w)).1 ≠ 0) ∨
      (f = CheckFailed "platform_view_" ∧
       dchecks_enabled env = true ∧ outcome ≠ AssemblySucceeds)
  end.
Proof.
  destruct w as [sc ks tl qs hp no tr].
  unfold AndroidShellHolder_new, ctor_runners.
  mstep. unfold bind at 1, pthread_key_create at 1. simpl.
  destruct (os_pthread_key_create env ks) as [rc key] eqn:Hkc. simpl.
  unfold bind at 1, FXL_CHECK at 1.
  case_bool_decide as Hrc; [|by left]. subst rc. simpl.
  unfold bind at 1. rewrite ThreadHost_new_workers. simpl.
  mstep. post_step. mstep. post_step.
  unfold GetTaskRunner.
  unfold bind at 1. rewrite EnsureInitialized_eq. simpl.
  mstep. unfold bind at 1, Shell_Create at 1.
  match goal with |- context [ Shell_Create_outcome ?e ?r ?s ] =>
    destruct (Shell_Create_outcome e r s) eqn:Hout end.
  - simpl. unfold bind at 1; simpl. unfold bind at 1; simpl.
    unfold FXL_DCHECK at 1, FXL_CHECK.
    destruct (dchecks_enabled env) eqn:Hd; simpl; [by right|].
    split; unfold ctor_runners; simpl; rewrite ?Hout, ?Hd; try done; try queue_lookup.
  - simpl. unfold bind at 1; simpl. unfold bind at 1; simpl.
    unfold FXL_DCHECK at 1, FXL_CHECK.
    rewrite lookup_delete_eq.
    rewrite bool_decide_eq_false_2 by (by intros [? [=]]).
    destruct (dchecks_enabled env) eqn:Hd; simpl; [by right|].
    split; unfold ctor_runners; simpl; rewrite ?Hout, ?Hd; try done; try queue_lookup.
  - simpl. unfold bind at 1; simpl. unfold bind at 1; simpl.
    unfold FXL_DCHECK at 1, FXL_CHECK.
    rewrite lookup_insert_ne by lia. rewrite lookup_insert_ne by lia.
    rewrite lookup_insert_eq.
    rewrite bool_decide_eq_true_2 by eauto.
    replace (if dchecks_enabled env then ret () else ret ())
      with (@ret World _ ()) by (by destruct (dchecks_enabled env)).
    unfold ret at 1. simpl. unfold enqueue. simpl.
    erewrite (lookup_ensure_loop_Some _ _ (HostedThread _ GPU))
      by (by simplify_map_eq).
    simpl. rewrite lookup_insert_ne by done.
    erewrite (lookup_ensure_loop_Some _ _ (HostedThread _ UI))
      by (by simplify_map_eq).
    simpl.
    split; unfold ctor_runners; simpl; rewrite ?Hout, ?Hd; try done; try queue_lookup.
    intros _. eexists _, _, _. split; [reflexivity|]. split; [reflexivity|].
    split; [|split].
    + rewrite lookup_insert_ne by lia. rewrite lookup_insert_ne by lia.
      by rewrite lookup_insert_eq.
    + rewrite lookup_insert_ne by lia. by rewrite lookup_insert_eq.
    + by rewrite lookup_insert_eq.
Qed.

Lemma AndroidShellHolder_new_constructed self settings java w h w' :
  AndroidShellHolder_new env self settings java w = Ok (h, w') →
  constructed env self settings java w h w'.
Proof.
  intros H. pose proof (AndroidShellHolder_new_cases self settings java w) as C.
  simpl in C. by rewrite H in C.
Qed.

(** The constructor returns when the key can be created and either the
    assembly succeeds or debug checks are compiled out. *)
Lemma AndroidShellHolder_new_returns self settings java w key :
  os_pthread_key_create env (keys w) = (0, key) →
  dchecks_enabled env = false ∨
  Shell_Create_outcome env (ctor_runners self w) settings = AssemblySucceeds →
  ∃ h w', AndroidShellHolder_new env self settings java w = Ok (h, w').
Proof.
  intros Hk Hc. pose proof (AndroidShellHolder_new_cases self settings java w) as C.
  simpl in C.
  destruct (AndroidShellHolder_new env self settings java w) as [[h w']|f]; [eauto|].
  destruct C as [[_ C]|(_ & Hd & Ho)].
  - by rewrite Hk in C.
  - destruct Hc; congruence.
Qed.

(** *** Posting *)

Lemma enqueue_Some runner t w ts :
  queues w !! runner = Some ts →
  enqueue runner t w = set_queues (<[runner := ts ++ [t]]> (queues w)) w.
Proof. intros H. unfold enqueue. by rewrite H. Qed.

Lemma enqueue_frame runner t w :
  heap (enqueue runner t w) = heap w ∧
  trace (enqueue runner t w) = trace w ∧
  keys (enqueue runner t w) = keys w ∧
  tls (enqueue runner t w) = tls w ∧
  dom (queues (enqueue runner t w)) = dom (queues w).
Proof.
  unfold enqueue. destruct (queues w !! runner) eqn:H; [|done]. simpl.
  repeat split. rewrite dom_insert_L.
  apply subseteq_union_1_L, singleton_subseteq_l. by eapply elem_of_dom_2.
Qed.

(** *** The methods, case by case *)

Ltac run_method :=
  cbv beta iota zeta delta
    [Launch SetViewportMetrics DispatchPointerDataPacket Screenshot IsValid
     GetSettings GetPlatformView shell_deref in_world zoom PostTask modify
     bind get ret deref crash Shell_Screenshot MakeCopyable this world
     Shell_GetTaskRunners Shell_GetEngine GetUITaskRunner negb];
  repeat match goal with
         | H : is_valid_ _ = _ |- _ => rewrite H
         | H : shell_ _ = _ |- _ => rewrite H
         end;
  cbv beta iota zeta.

Lemma IsValid_eq s : IsValid s = Ok (is_valid_ (this s), s).
Proof. reflexivity. Qed.

Lemma Launch_invalid config s :
  is_valid_ (this s) = false → Launch config s = Ok (tt, s).
Proof. intros H. destruct s as [h w]. simpl in *. by run_method. Qed.

Lemma SetViewportMetrics_invalid metrics s :
  is_valid_ (this s) = false → SetViewportMetrics metrics s = Ok (tt, s).
Proof. intros H. destruct s as [h w]. simpl in *. by run_method. Qed.

Lemma DispatchPointerDataPacket_invalid packet s :
  is_valid_ (this s) = false →
  DispatchPointerDataPacket packet s = Ok (tt, s).
Proof. intros H. destruct s as [h w]. simpl in *. by run_method. Qed.

Lemma Screenshot_invalid type b s :
  is_valid_ (this s) = false →
  Screenshot env type b s = Ok (mkScreenshot None SkISize_MakeEmpty, s).
Proof. intros H. destruct s as [h w]. simpl in *. by run_method. Qed.

Lemma Launch_valid config s sh :
  is_valid_ (this s) = true → shell_ (this s) = Some sh →
  Launch config s =
  Ok (tt, mkState (this s)
            (enqueue (ui_runner (shell_task_runners sh))
                     (LaunchTask (shell_engine sh) config) (world s))).
Proof. intros H Hs. destruct s as [h w]. simpl in *. by run_method. Qed.

Lemma SetViewportMetrics_valid metrics s sh :
  is_valid_ (this s) = true → shell_ (this s) = Some sh →
  SetViewportMetrics metrics s =
  Ok (tt, mkState (this s)
            (enqueue (ui_runner (shell_task_runners sh))
                     (ViewportTask (shell_engine sh) metrics) (world s))).
Proof. intros H Hs. destruct s as [h w]. simpl in *. by run_method. Qed.

Lemma DispatchPointerDataPacket_valid packet s sh :
  is_valid_ (this s) = true → shell_ (this s) = Some sh →
  DispatchPointerDataPacket packet s =
  Ok (tt, mkState (this s)
            (enqueue (ui_runner (shell_task_runners sh))
                     (PointerTask (shell_engine sh) packet) (world s))).
Proof. intros H Hs. destruct s as [h w]. simpl in *. by run_method. Qed.

Lemma Screenshot_valid type b s sh :
  is_valid_ (this s) = true → shell_ (this s) = Some sh →
  Screenshot env type b s =
  Ok (Shell_Screenshot_result env type b,
      mkState (this s) (emit (EvShellScreenshot type b) (world s))).
Proof. intros H Hs. destruct s as [h w]. simpl in *. by run_method. Qed.

Lemma GetPlatformView_cases s :
  GetPlatformView env s =
  if dchecks_enabled env && negb (WeakPtr_bool (world s) (platform_view_ (this s)))
  then Crash (CheckFailed "platform_view_")
  else Ok (platform_view_ (this s), s).
Proof.
  unfold GetPlatformView, FXL_DCHECK, FXL_CHECK, bind, get. simpl.
  destruct (dchecks_enabled env); [|done].
  by destruct (WeakPtr_bool _ _).
Qed.

(** *** What a step can change *)

Lemma same_frame_enqueue s runner t :
  same_frame s (mkState (this s) (enqueue runner t (world s))).
Proof.
  destruct (enqueue_frame runner t (world s)) as (? & ? & ? & ? & ?).
  by repeat split.
Qed.

Lemma call_frame c s r s' :
  call env c s = Ok (r, s') → same_frame s s'.
Proof.
  destruct s as [h w].
  destruct c; simpl; unfold bind.
  - by intros [= _ <-].
  - by intros [= _ <-].
  - destruct (is_valid_ h) eqn:Hv.
    + destruct (shell_ h) as [sh|] eqn:Hs.
      * rewrite (Launch_valid _ _ sh) by done. intros [= _ <-].
        apply (same_frame_enqueue (mkState h w)).
      * unfold Launch. by run_method.
    + rewrite Launch_invalid by done. by intros [= _ <-].
  - destruct (is_valid_ h) eqn:Hv.
    + destruct (shell_ h) as [sh|] eqn:Hs.
      * rewrite (SetViewportMetrics_valid _ _ sh) by done. intros [= _ <-].
        apply (same_frame_enqueue (mkState h w)).
      * unfold SetViewportMetrics. by run_method.
    + rewrite SetViewportMetrics_invalid by done. by intros [= _ <-].
  - destruct (is_valid_ h) eqn:Hv.
    + destruct (shell_ h) as [sh|] eqn:Hs.
      * rewrite (DispatchPointerDataPacket_valid _ _ sh) by done.
        intros [= _ <-]. apply (same_frame_enqueue (mkState h w)).
      * unfold DispatchPointerDataPacket. by run_method.
    + rewrite DispatchPointerDataPacket_invalid by done. by intros [= _ <-].
  - destruct (is_valid_ h) eqn:Hv.
    + destruct (shell_ h) as [sh|] eqn:Hs.
      * rewrite (Screenshot_valid _ _ _ sh) by done. by intros [= _ <-].
      * unfold Screenshot. by run_method.
    + rewrite Screenshot_invalid by done. by intros [= _ <-].
  - rewrite GetPlatformView_cases.
    destruct (_ && _); [done|]. by intros [= _ <-].
Qed.

Lemma run_task_frame tid t w w' :
  run_task env tid t w = Ok (tt, w') →
  heap w' = heap w ∧ queues w' = queues w ∧ keys w' = keys w.
Proof.
  destruct w as [sc ks tl qs hp no tr].
  destruct t; simpl; unfold bind, get, setpriority, pthread_setspecific,
    FXL_CHECK, FXL_LOG_ERROR, modify, bind, ret, crash, WeakPtr_deref; simpl.
  - repeat case_bool_decide; simpl; try done; by intros [= <-].
  - repeat case_bool_decide; simpl; by intros [= <-].
  - repeat case_bool_decide; simpl; by intros [= <-].
  - destruct engine as [e|]; simpl; [|by intros [= <-]].
    destruct (bool_decide (is_Some (hp !! e))) eqn:Hb; simpl; rewrite ?Hb; simpl; [|by intros [= <-]].
    destruct (Engine_Run env config); simpl; by intros [= <-].
  - destruct engine as [e|]; simpl; [|by intros [= <-]].
    destruct (bool_decide (is_Some (hp !! e))) eqn:Hb; simpl; rewrite ?Hb; simpl; by intros [= <-].
  - destruct engine as [e|]; simpl; [|by intros [= <-]].
    destruct (bool_decide (is_Some (hp !! e))) eqn:Hb; simpl; rewrite ?Hb; simpl; [|by intros [= <-]].
    destruct packet; simpl; [|done]. by intros [= <-].
Qed.

Lemma run_next_task_frame tid w w' :
  run_next_task env tid w = Ok (tt, w') →
  heap w' = heap w ∧ keys w' = keys w ∧ dom (queues w') = dom (queues w).
Proof.
  unfold run_next_task, bind, get. simpl.
  destruct (queues w !! tid) as [[|t rest]|] eqn:Hq;
    try (by intros [= <-]).
  unfold modify. simpl. intros H.
  apply run_task_frame in H as (Hh & Hq' & Hk).
  destruct w; simpl in *. rewrite Hh, Hq', Hk. repeat split.
  rewrite dom_insert_L.
  apply subseteq_union_1_L, singleton_subseteq_l. by eapply elem_of_dom_2.
Qed.

Lemma step_frame st s s' :
  step env st s = Ok (tt, s') → same_frame s s'.
Proof.
  destruct st as [c|tid]; simpl.
  - unfold bind. destruct (call env c s) as [[r s1]|] eqn:Hc; [|done].
    intros [= <-]. by eapply call_frame.
  - unfold in_world, zoom.
    destruct (run_next_task env tid (world s)) as [[[] w1]|] eqn:Hr; [|done].
    intros [= <-]. apply run_next_task_frame in Hr as (? & ? & ?).
    by repeat split.
Qed.

Lemma steps_frame sts s s' :
  steps env sts s = Ok (tt, s') → same_frame s s'.
Proof.
  revert s. induction sts as [|st sts IH]; intros s; simpl.
  - by intros [= <-].
  - unfold bind. destruct (step env st s) as [[[] s1]|] eqn:Hst; [|done].
    intros H. apply step_frame in Hst as (Ht & Hh & Hq).
    apply IH in H as (Ht' & Hh' & Hq').
    repeat split; congruence.
Qed.

(** *** The invariant of a live holder *)

Lemma constructed_inv self settings java w h w' :
  constructed env self settings java w h w' → holder_inv env (mkState h w').
Proof.
  intros C. split; [apply C|]. split; [apply C|]. simpl. intros Hv.
  destruct (c_shell _ _ _ _ _ _ _ C Hv) as (pv & r & e & Hs & Hpv & Hhpv & _ & Hhe).
  exists (mkShell (ctor_runners self w) settings (Some pv) (Some r) (Some e)), pv, e.
  simpl. rewrite (c_settings _ _ _ _ _ _ _ C), (c_java_object _ _ _ _ _ _ _ C).
  split_and!; try done.
  - by rewrite (c_thread_host _ _ _ _ _ _ _ C).
  - pose proof (c_ui_queue _ _ _ _ _ _ _ C) as Hq. simpl in Hq. by rewrite Hq.
Qed.

Lemma holder_inv_frame s s' :
  same_frame s s' → holder_inv env s → holder_inv env s'.
Proof.
  intros (Ht & Hh & Hq) (I1 & I2 & I3). unfold holder_inv.
  rewrite Ht, Hh. split; [done|]. split; [done|]. intros Hv.
  destruct (I3 Hv) as (sh & pv & e & ? & ? & ? & ? & ? & ? & ? & Hui).
  exists sh, pv, e. split_and!; try done.
  intros Hn. apply not_elem_of_dom in Hn. rewrite Hq in Hn.
  by apply not_elem_of_dom in Hn.
Qed.

Lemma reachable_inv s : reachable env s → holder_inv env s.
Proof.
  induction 1 as [self settings java w h w' Hnew | s st s' _ IH Hst].
  - eapply constructed_inv. by apply AndroidShellHolder_new_constructed.
  - eapply holder_inv_frame; [|exact IH]. by eapply step_frame.
Qed.

Lemma reachable_steps sts s s' :
  reachable env s → steps env sts s = Ok (tt, s') → reachable env s'.
Proof.
  revert s. induction sts as [|st sts IH]; intros s Hr; simpl.
  - by intros [= <-].
  - unfold bind. destruct (step env st s) as [[[] s1]|] eqn:Hst; [|done].
    intros H. eapply IH; [|exact H]. by eapply reachable_step.
Qed.

(** *** Tasks that call into the engine *)

Lemma run_task_dead_engine tid t engine w :
  task_engine t = Some engine →
  WeakPtr_bool w engine = false →
  run_task env tid t w = Ok (tt, w).
Proof.
  destruct t; simpl; try done; intros [= ->] Hd;
    unfold bind, get; simpl; by rewrite Hd.
Qed.

Lemma run_LaunchTask_live tid e config w :
  heap w !! e ≠ None →
  run_task env tid (LaunchTask (Some e) config) w =
  Ok (tt, if Engine_Run env config
          then emit (EvEngineRun e config true) w
          else emit (EvLogError "Could not launch engine in configuration.")
                 (emit (EvEngineRun e config false) w)).
Proof.
  intros Hl. simpl. unfold bind, get, WeakPtr_deref. simpl.
  rewrite bool_decide_eq_true_2 by (by destruct (heap w !! e)). simpl.
  rewrite bool_decide_eq_true_2 by (by destruct (heap w !! e)). simpl.
  by destruct (Engine_Run env config).
Qed.

Lemma run_PointerTask_live tid e packet w :
  heap w !! e ≠ None →
  run_task env tid (PointerTask (Some e) packet) w =
  match packet with
  | Some p => Ok (tt, emit (EvEngineDispatchPointerDataPacket e p) w)
  | None => Crash (NullDereference "packet")
  end.
Proof.
  intros Hl. simpl. unfold bind, get, WeakPtr_deref. simpl.
  rewrite bool_decide_eq_true_2 by (by destruct (heap w !! e)). simpl.
  rewrite bool_decide_eq_true_2 by (by destruct (heap w !! e)). simpl.
  by destruct packet.
Qed.

Lemma engine_runs_emit e w :
  engine_runs (trace (emit e w)) = engine_runs (trace w) ++ engine_runs [e].
Proof. unfold engine_runs. simpl. by rewrite omap_app. Qed.

(** A valid holder that was constructed owns a shell with a live engine
    and a running UI loop. *)
Lemma reachable_valid_shell s :
  reachable env s → is_valid_ (this s) = true →
  ∃ sh e ts,
    shell_ (this s) = Some sh ∧
    shell_engine sh = Some e ∧
    heap (world s) !! e ≠ None ∧
    ui_thread (thread_host_ (this s)) = Some (ui_runner (shell_task_runners sh)) ∧
    queues (world s) !! ui_runner (shell_task_runners sh) = Some ts.
Proof.
  intros Hr Hv. destruct (reachable_inv _ Hr) as (_ & _ & I).
  destruct (I Hv) as (sh & pv & e & Hs & He & Hle & _ & _ & _ & Hui & Hq).
  destruct (queues (world s) !! ui_runner (shell_task_runners sh)) as [ts|] eqn:Hts;
    [|done].
  exists sh, e, ts. split_and!; try done. by destruct Hle as [? ->].
Qed.

Lemma enqueue_posted runner ts t s :
  queues (world s) !! runner = Some ts →
  mkState (this s) (enqueue runner t (world s)) = posted runner ts t s.
Proof. intros H. unfold posted. by rewrite (enqueue_Some _ _ _ _ H). Qed.

(** Posting changes the queue it posts to, and no other. *)
Lemma posted_lookup runner ts t s r :
  queues (world (posted runner ts t s)) !! r =
  if decide (runner = r) then Some (ts ++ [t]) else queues (world s) !! r.
Proof. unfold posted. simpl. apply lookup_insert. Qed.

(** ** The properties of the specification *)

(** C1.  On a holder whose [IsValid()] is false, [Launch],
    [SetViewportMetrics], [DispatchPointerDataPacket] and [Screenshot]
    return at once: in any sequence of these calls (the getters [IsValid]
    and [GetSettings] may be mixed in) every call answers as a no-op and
    the state after the sequence is the state before it: the same holder,
    the same queues (nothing was posted), the same trace (nothing was
    called). *)
Theorem invalid_holder_calls_are_noops (cs : list Call) (s : State) :
  is_valid_ (this s) = false →
  forallb guarded_or_getter cs = true →
  calls env cs s = Ok (noop_response (this s) <$> cs, s).
Proof.
  intros Hv. induction cs as [|c cs IH]; simpl; [done|].
  intros [Hc Hcs]%andb_prop. specialize (IH Hcs).
  unfold bind at 1.
  assert (call env c s = Ok (noop_response (this s) c, s)) as ->.
  { destruct c; simpl; unfold bind; try done.
    - by rewrite Launch_invalid.
    - by rewrite SetViewportMetrics_invalid.
    - by rewrite DispatchPointerDataPacket_invalid.
    - by rewrite Screenshot_invalid. }
  unfold bind. by rewrite IH.
Qed.

(** C5.  [Screenshot] on an invalid holder answers the empty screenshot
    (null data, empty size) and changes nothing, so the shell is not
    called; on a valid holder that was constructed it answers what
    [Shell::Screenshot] answers, within the call, and the queues are
    as before: the call into the shell is the only effect. *)
Theorem Screenshot_spec (type : ScreenshotType) (base64_encode : bool) (s : State) :
  (is_valid_ (this s) = false →
   Screenshot env type base64_encode s =
   Ok (mkScreenshot None SkISize_MakeEmpty, s)) ∧
  (reachable env s → is_valid_ (this s) = true →
   ∃ s',
     Screenshot env type base64_encode s =
       Ok (Shell_Screenshot_result env type base64_encode, s') ∧
     this s' = this s ∧
     queues (world s') = queues (world s) ∧
     trace (world s') = trace (world s) ++ [EvShellScreenshot type base64_encode]).
Proof.
  split.
  - apply Screenshot_invalid.
  - intros Hr Hv. destruct (reachable_inv _ Hr) as (_ & _ & I).
    destruct (I Hv) as (sh & pv & e & Hs & _).
    eexists. split; [by apply (Screenshot_valid _ _ _ sh)|]. done.
Qed.

(** C7.  The flag behind [IsValid()] is what the constructor computed at
    line 84: true exactly when [Shell::Create] returned a shell, that is
    when the assembly succeeded.  Calls on the holder and turns of the
    message loops, in any number and order, leave it as it is. *)
Theorem is_valid_fixed_by_construction self settings java w h w'
    (sts : list Step) (s' : State) :
  AndroidShellHolder_new env self settings java w = Ok (h, w') →
  steps env sts (mkState h w') = Ok (tt, s') →
  (is_valid_ h = true ↔ shell_ h ≠ None) ∧
  (is_valid_ h = true ↔
   Shell_Create_outcome env (ctor_runners self w) settings = AssemblySucceeds) ∧
  IsValid s' = Ok (is_valid_ h, s').
Proof.
  intros Hnew Hsts. apply AndroidShellHolder_new_constructed in Hnew as C.
  split; [|split].
  - rewrite (c_is_valid _ _ _ _ _ _ _ C). apply bool_decide_eq_true.
  - apply C.
  - apply steps_frame in Hsts as (Ht & _). rewrite IsValid_eq.
    simpl in Ht. by rewrite Ht.
Qed.

(** C8.  [GetPlatformView] returns the member [platform_view_] and changes
    nothing.  Where debug checks are compiled in and the handle is empty
    the call stops at the check.  On every state reached from a completed
    construction by calls and loop turns the check passes; on a valid
    holder the handle is alive and points to the platform view that the
    factory built around the holder's Java object. *)
Theorem GetPlatformView_spec (s : State) :
  (∀ p s', GetPlatformView env s = Ok (p, s') →
           p = platform_view_ (this s) ∧ s' = s) ∧
  (dchecks_enabled env = true →
   WeakPtr_bool (world s) (platform_view_ (this s)) = false →
   GetPlatformView env s = Crash (CheckFailed "platform_view_")) ∧
  (reachable env s →
   GetPlatformView env s = Ok (platform_view_ (this s), s) ∧
   (is_valid_ (this s) = true →
    WeakPtr_bool (world s) (platform_view_ (this s)) = true ∧
    ∃ pv pva,
      platform_view_ (this s) = Some pv ∧
      heap (world s) !! pv = Some (ObjPlatformView pva) ∧
      pv_java_object pva = java_object_ (this s))).
Proof.
  rewrite GetPlatformView_cases. split; [|split].
  - intros p s'. destruct (_ && _); [done|]. by intros [= <- <-].
  - by intros -> ->.
  - intros Hr. destruct (reachable_inv _ Hr) as (_ & I2 & I3).
    assert (is_valid_ (this s) = true →
            WeakPtr_bool (world s) (platform_view_ (this s)) = true) as Hlive.
    { intros Hv. destruct (I3 Hv) as (sh & pv & e & _ & _ & _ & _ & -> & Hpv & _).
      simpl. rewrite Hpv. by apply bool_decide_eq_true_2. }
    split.
    + destruct (dchecks_enabled env) eqn:Hd; [|done].
      by rewrite (Hlive (I2 eq_refl)).
    + intros Hv. split; [by apply Hlive|].
      destruct (I3 Hv) as (sh & pv & e & _ & _ & _ & _ & Hp & Hpv & _).
      by eexists _, _.
Qed.

(** C3.  On a valid holder that was constructed, [Launch(config)] puts one
    task at the back of the queue of the UI thread and changes nothing
    else.  However many calls and loop turns follow, when that task runs
    [Engine::Run] is called once more, with [config]. *)
Theorem Launch_runs_engine_once (s : State) (config : RunConfiguration) :
  reachable env s → is_valid_ (this s) = true →
  ∃ ui ts engine s1,
    ui_thread (thread_host_ (this s)) = Some ui ∧
    queues (world s) !! ui = Some ts ∧
    Launch config s = Ok (tt, s1) ∧
    s1 = posted ui ts (LaunchTask engine config) s ∧
    ∀ sts s2 tid,
      steps env sts s1 = Ok (tt, s2) →
      ∃ w3,
        run_task env tid (LaunchTask engine config) (world s2) = Ok (tt, w3) ∧
        engine_runs (trace w3) = engine_runs (trace (world s2)) ++ [config].
Proof.
  intros Hr Hv.
  destruct (reachable_valid_shell s Hr Hv) as (sh & e & ts & Hs & He & Hle & Hui & Hq).
  assert (Launch config s =
          Ok (tt, posted (ui_runner (shell_task_runners sh)) ts
                         (LaunchTask (Some e) config) s)) as HL.
  { rewrite (Launch_valid _ _ sh Hv Hs), He. by rewrite (enqueue_posted _ ts). }
  eexists _, ts, (Some e), _. split_and!; [done..|].
  intros sts s2 tid Hsts.
  assert (reachable env s2) as Hr2.
  { eapply reachable_steps; [|exact Hsts].
    eapply (reachable_step _ s (StepCall (CallLaunch config))); [done|].
    simpl. unfold bind. by rewrite HL. }
  apply steps_frame in Hsts as (Ht & Hh & _). simpl in Ht.
  assert (heap (world s2) !! e ≠ None) as Hle2.
  { rewrite Hh. simpl. done. }
  rewrite (run_LaunchTask_live _ _ _ _ Hle2). eexists. split; [done|].
  destruct (Engine_Run env config); by rewrite !engine_runs_emit, ?app_nil_r.
Qed.

(** C9.  On a valid holder that was constructed, [Launch],
    [SetViewportMetrics] and [DispatchPointerDataPacket] each post one
    task that captures the weak pointer [shell_->GetEngine()].  Run in a
    world where that engine is gone, each of the three tasks returns
    without a crash and leaves the world as it found it. *)
Theorem engine_tasks_skip_dead_engine (s : State) (config : RunConfiguration)
    (metrics : ViewportMetrics) (packet : option PointerDataPacket) :
  reachable env s → is_valid_ (this s) = true →
  ∃ sh ui ts,
    shell_ (this s) = Some sh ∧
    ui_thread (thread_host_ (this s)) = Some ui ∧
    queues (world s) !! ui = Some ts ∧
    Launch config s =
      Ok (tt, posted ui ts (LaunchTask (Shell_GetEngine sh) config) s) ∧
    SetViewportMetrics metrics s =
      Ok (tt, posted ui ts (ViewportTask (Shell_GetEngine sh) metrics) s) ∧
    DispatchPointerDataPacket packet s =
      Ok (tt, posted ui ts (PointerTask (Shell_GetEngine sh) packet) s) ∧
    ∀ t tid w,
      t ∈ [LaunchTask (Shell_GetEngine sh) config;
           ViewportTask (Shell_GetEngine sh) metrics;
           PointerTask (Shell_GetEngine sh) packet] →
      WeakPtr_bool w (Shell_GetEngine sh) = false →
      run_task env tid t w = Ok (tt, w).
Proof.
  intros Hr Hv.
  destruct (reachable_valid_shell s Hr Hv) as (sh & e & ts & Hs & He & Hle & Hui & Hq).
  exists sh, (ui_runner (shell_task_runners sh)), ts.
  split_and!; try done.
  - rewrite (Launch_valid _ _ sh Hv Hs). by rewrite (enqueue_posted _ ts).
  - rewrite (SetViewportMetrics_valid _ _ sh Hv Hs). by rewrite (enqueue_posted _ ts).
  - rewrite (DispatchPointerDataPacket_valid _ _ sh Hv Hs).
    by rewrite (enqueue_posted _ ts).
  - intros t tid w Ht Hd. eapply run_task_dead_engine; [|exact Hd].
    set_unfold in Ht. by destruct Ht as [->|[->|[->|[]]]].
Qed.

(** C10.  [DispatchPointerDataPacket] has no check on the packet: on a
    valid holder that was constructed it posts the task with the packet
    it was given, null or not.  The task guards the engine only.  With a
    packet that is not null the task never crashes; with a null packet and
    a live engine it dereferences the null packet. *)
Theorem DispatchPointerDataPacket_needs_packet (s : State)
    (packet : option PointerDataPacket) :
  reachable env s → is_valid_ (this s) = true →
  ∃ ui ts engine,
    queues (world s) !! ui = Some ts ∧
    DispatchPointerDataPacket packet s =
      Ok (tt, posted ui ts (PointerTask engine packet) s) ∧
    (packet ≠ None →
     ∀ tid w, ∃ w', run_task env tid (PointerTask engine packet) w = Ok (tt, w')) ∧
    (packet = None →
     ∀ tid w, WeakPtr_bool w engine = true →
              run_task env tid (PointerTask engine packet) w =
              Crash (NullDereference "packet")).
Proof.
  intros Hr Hv.
  destruct (reachable_valid_shell s Hr Hv) as (sh & e & ts & Hs & He & Hle & Hui & Hq).
  exists (ui_runner (shell_task_runners sh)), ts, (Some e). split_and!; try done.
  - rewrite (DispatchPointerDataPacket_valid _ _ sh Hv Hs), He.
    by rewrite (enqueue_posted _ ts).
  - intros Hp tid w. destruct (WeakPtr_bool w (Some e)) eqn:Hl.
    + simpl in Hl. apply bool_decide_eq_true_1 in Hl.
      rewrite run_PointerTask_live by (by destruct Hl as [? ->]).
      destruct packet; [eauto|done].
    + exists w. by apply (run_task_dead_engine _ _ (Some e)).
  - intros -> tid w Hl. simpl in Hl. apply bool_decide_eq_true_1 in Hl.
    by rewrite run_PointerTask_live by (by destruct Hl as [? ->]).
Qed.

(** *** Priority tuning *)

Lemma run_GpuPriorityTask tid w :
  run_task env tid GpuPriorityTask w =
  Ok (tt, emits
     (EvSetPriority tid (-5) (os_setpriority env tid (-5)) ::
      if decide (os_setpriority env tid (-5) = 0) then []
      else EvSetPriority tid (-2) (os_setpriority env tid (-2)) ::
           if decide (os_setpriority env tid (-2) = 0) then []
           else [EvLogError "Failed to set GPU task runner priority"]) w).
Proof.
  destruct w as [sc ks tl qs hp no tr].
  simpl. unfold bind, setpriority, FXL_LOG_ERROR, modify, bind, ret, emits, emit.
  simpl.
  destruct (decide (os_setpriority env tid (-5) = 0)) as [H5|H5].
  - rewrite bool_decide_eq_false_2 by (by intros ?). done.
  - rewrite bool_decide_eq_true_2 by done. simpl.
    destruct (decide (os_setpriority env tid (-2) = 0)) as [H2|H2].
    + rewrite bool_decide_eq_false_2 by (by intros ?).
      by rewrite <- !app_assoc.
    + rewrite bool_decide_eq_true_2 by done. simpl.
      by rewrite <- !app_assoc.
Qed.

Lemma priority_attempts_app tid tr1 tr2 :
  priority_attempts tid (tr1 ++ tr2) =
  priority_attempts tid tr1 ++ priority_attempts tid tr2.
Proof. apply omap_app. Qed.

(** C4.  The priority tasks are in the queues after the constructor
    exactly when the assembly succeeded: then one on the GPU queue and one
    on the UI queue, otherwise none.  The GPU task asks for level -5; it
    asks for level -2, once, exactly when -5 was rejected; when both are
    rejected it logs an error.  In every case the task returns without a
    crash, and it does not touch the holder, so [IsValid()] answers after
    the task what it answered before. *)
Theorem gpu_priority_task_falls_back_once self settings java w h w'
    (tid : ThreadId) (w0 : World) :
  AndroidShellHolder_new env self settings java w = Ok (h, w') →
  let rc5 := os_setpriority env tid (-5) in
  let rc2 := os_setpriority env tid (-2) in
  let w1 :=
    emits (EvSetPriority tid (-5) rc5 ::
           if decide (rc5 = 0) then []
           else EvSetPriority tid (-2) rc2 ::
                if decide (rc2 = 0) then []
                else [EvLogError "Failed to set GPU task runner priority"]) w0 in
  (is_valid_ h = true ↔
   Shell_Create_outcome env (ctor_runners self w) settings = AssemblySucceeds) ∧
  filter is_priority_task (pending w' (gpu_runner (ctor_runners self w))) =
    (if is_valid_ h then [GpuPriorityTask] else []) ∧
  filter is_priority_task (pending w' (ui_runner (ctor_runners self w))) =
    (if is_valid_ h then [UiPriorityTask] else []) ∧
  filter is_priority_task (pending w' (io_runner (ctor_runners self w))) = [] ∧
  run_task env tid GpuPriorityTask w0 = Ok (tt, w1) ∧
  priority_attempts tid (trace w1) =
    priority_attempts tid (trace w0) ++
    (-5 :: if decide (rc5 = 0) then [] else [-2]) ∧
  in_world (run_task env tid GpuPriorityTask) (mkState h w0) =
    Ok (tt, mkState h w1) ∧
  IsValid (mkState h w1) = Ok (is_valid_ h, mkState h w1).
Proof.
  intros Hnew rc5 rc2 w1. apply AndroidShellHolder_new_constructed in Hnew as C.
  assert (run_task env tid GpuPriorityTask w0 = Ok (tt, w1)) as Hrun
    by apply run_GpuPriorityTask.
  split_and!; try done.
  - apply C.
  - unfold pending. rewrite (c_gpu_queue _ _ _ _ _ _ _ C). simpl.
    by destruct (is_valid_ h).
  - unfold pending. rewrite (c_ui_queue _ _ _ _ _ _ _ C). simpl.
    by destruct (is_valid_ h).
  - unfold pending. by rewrite (c_io_queue _ _ _ _ _ _ _ C).
  - subst w1. unfold emits. simpl. rewrite priority_attempts_app. f_equal.
    unfold priority_attempts. simpl. rewrite decide_True by done.
    destruct (decide (rc5 = 0)); [done|]. simpl. rewrite decide_True by done.
    by destruct (decide (rc2 = 0)).
  - unfold in_world, zoom. cbn [world this]. by rewrite Hrun.
Qed.

(** *** The thread-exit task *)

Lemma run_JniExitTask tid key w w' :
  run_task env tid (JniExitTask key) w = Ok (tt, w') →
  w' = set_tls (<[(key, tid) := 1]> (tls w)) w.
Proof.
  simpl. unfold bind, pthread_setspecific, FXL_CHECK. simpl.
  case_bool_decide; simpl; [|done]. by intros [= <-].
Qed.

(** C2, as the code has it.  The constructor starts the UI, GPU and IO
    threads and posts the thread-exit task, which carries the holder's
    key, once to the UI thread and once to the GPU thread.  The queue of
    the IO thread is empty after the constructor.  When the task runs on a
    thread and returns, the value of the key on that thread is 1, which is
    what makes the key's destructor run when the thread exits. *)
Theorem jni_exit_task_on_ui_and_gpu self settings java w h w' :
  AndroidShellHolder_new env self settings java w = Ok (h, w') →
  ∃ ui gpu io,
    thread_host_ h = mkThreadHost None (Some ui) (Some gpu) (Some io) ∧
    hosted_threads (thread_host_ h) = [ui; gpu; io] ∧
    filter is_jni_exit_task (pending w' ui) =
      [JniExitTask (thread_destruct_key_ h)] ∧
    filter is_jni_exit_task (pending w' gpu) =
      [JniExitTask (thread_destruct_key_ h)] ∧
    pending w' io = [] ∧
    ∀ tid w0 w1,
      run_task env tid (JniExitTask (thread_destruct_key_ h)) w0 = Ok (tt, w1) →
      tls w1 !! (thread_destruct_key_ h, tid) = Some 1.
Proof.
  intros Hnew. apply AndroidShellHolder_new_constructed in Hnew as C.
  eexists _, _, _. split; [apply C|].
  rewrite (c_thread_host _ _ _ _ _ _ _ C). split; [done|].
  unfold pending.
  rewrite (c_ui_queue _ _ _ _ _ _ _ C), (c_gpu_queue _ _ _ _ _ _ _ C),
    (c_io_queue _ _ _ _ _ _ _ C).
  split_and!; try done.
  - simpl. by destruct (is_valid_ h).
  - simpl. by destruct (is_valid_ h).
  - intros tid w0 w1 ->%run_JniExitTask. simpl. apply lookup_insert_eq.
Qed.

(** *** Teardown *)

Lemma emits_emit evs e w : emits evs (emit e w) = emits (e :: evs) w.
Proof. destruct w. unfold emits, emit. simpl. by rewrite <- app_assoc. Qed.

Lemma foldl_ThreadDestructCallback tid (v : pthread_key_t → Z) l acc :
  foldl (λ w' k, ThreadDestructCallback tid (v k) w') acc l =
  emits (replicate (length l) (EvDetachFromVM tid)) acc.
Proof.
  revert acc. induction l as [|k l IH]; intros acc; simpl.
  - destruct acc. unfold emits. simpl. by rewrite app_nil_r.
  - rewrite IH. unfold ThreadDestructCallback. apply emits_emit.
Qed.

Lemma run_key_destructors_emits tid w :
  run_key_destructors tid w =
  emits (replicate (length (armed_keys w tid)) (EvDetachFromVM tid)) w.
Proof. apply foldl_ThreadDestructCallback. Qed.

Lemma Thread_join_joined t w :
  ∃ w', Thread_join t w = Ok (tt, w') ∧ joined t w w'.
Proof.
  destruct t as [tid|]; simpl.
  - eexists. split; [reflexivity|]. rewrite run_key_destructors_emits.
    destruct w as [sc ks tl qs hp no tr].
    unfold emit, set_tls, emits, set_queues. simpl. split_and!; try done.
    eexists. split; [by rewrite <- app_assoc|]. split.
    + apply Forall_app. split; [|by repeat constructor].
      apply Forall_replicate. done.
    + unfold joined_threads. rewrite omap_app. simpl.
      match goal with |- context [replicate ?n _] => generalize n end.
      intros n. induction n as [|n IH]; simpl; done.
  - exists w. split; [done|]. split_and!; try done.
    exists []. by rewrite app_nil_r.
Qed.

Lemma joined_threads_app tr1 tr2 :
  joined_threads (tr1 ++ tr2) = joined_threads tr1 ++ joined_threads tr2.
Proof. apply omap_app. Qed.

Lemma ThreadHost_Reset_spec th w :
  ∃ w' exits,
    ThreadHost_Reset th w = Ok (ThreadHost_empty, w') ∧
    heap w' = heap w ∧
    keys w' = keys w ∧
    (∀ t, t ∈ hosted_threads th → queues w' !! t = None) ∧
    trace w' = trace w ++ EvThreadHostReset :: exits ∧
    Forall is_thread_exit_event exits ∧
    joined_threads exits = hosted_threads th.
Proof.
  unfold ThreadHost_Reset. unfold bind at 1. simpl.
  destruct (Thread_join_joined (platform_thread th) (emit EvThreadHostReset w))
    as (w1 & E1 & Hh1 & Hk1 & Hq1 & ev1 & Ht1 & HF1 & Hj1).
  unfold bind at 1. rewrite E1.
  destruct (Thread_join_joined (ui_thread th) w1)
    as (w2 & E2 & Hh2 & Hk2 & Hq2 & ev2 & Ht2 & HF2 & Hj2).
  unfold bind at 1. rewrite E2.
  destruct (Thread_join_joined (gpu_thread th) w2)
    as (w3 & E3 & Hh3 & Hk3 & Hq3 & ev3 & Ht3 & HF3 & Hj3).
  unfold bind at 1. rewrite E3.
  destruct (Thread_join_joined (io_thread th) w3)
    as (w4 & E4 & Hh4 & Hk4 & Hq4 & ev4 & Ht4 & HF4 & Hj4).
  unfold bind at 1. rewrite E4. simpl.
  exists w4, (ev1 ++ ev2 ++ ev3 ++ ev4). split; [done|].
  destruct w as [sc ks tl qs hp no tr]. simpl in *.
  split_and!.
  - congruence.
  - congruence.
  - intros t Ht. rewrite Hq4, Hq3, Hq2, Hq1. clear -Ht.
    destruct th as [[p|] [u|] [g|] [i|]]; unfold hosted_threads in Ht;
      simpl in *; set_unfold in Ht;
      rewrite ?lookup_delete_None; intuition.
  - rewrite Ht4, Ht3, Ht2, Ht1. rewrite <- !app_assoc. done.
  - by rewrite !Forall_app.
  - rewrite !joined_threads_app, Hj1, Hj2, Hj3, Hj4.
    by destruct th as [[p|] [u|] [g|] [i|]].
Qed.

Lemma Shell_dtor_spec sh w :
  ∃ w', Shell_dtor sh w = Ok (tt, w') ∧
        trace w' = trace w ∧ keys w' = keys w ∧ queues w' = queues w ∧
        ∀ o, o ∈ shell_objects sh → heap w' !! o = None.
Proof.
  unfold Shell_dtor, bind, destroy, modify. eexists. split; [reflexivity|].
  destruct sh as [rs st [pv|] [r|] [e|]]; destruct w; simpl;
    split_and!; try done; intros o Ho; unfold shell_objects in Ho;
    simpl in Ho; set_unfold in Ho;
    repeat (destruct Ho as [->|Ho];
            [rewrite ?lookup_delete_eq;
             repeat (rewrite lookup_delete; case_decide; [done|]);
             try done|]); try done.
Qed.


Lemma shell_reset_spec s :
  ∃ w1,
    shell_reset s = Ok (tt, set_shell_ None (mkState (this s) w1)) ∧
    trace w1 = trace (world s) ++ [EvShellReset (bool_decide (shell_ (this s) ≠ None))] ∧
    keys w1 = keys (world s) ∧
    queues w1 = queues (world s) ∧
    ∀ sh o, shell_ (this s) = Some sh → o ∈ shell_objects sh → heap w1 !! o = None.
Proof.
  destruct s as [h w].
  cbv beta iota zeta delta [shell_reset bind get in_world zoom modify this world ret].
  destruct (shell_ h) as [sh|] eqn:Hs.
  - destruct (Shell_dtor_spec sh
      (emit (EvShellReset (bool_decide (Some sh ≠ None))) w))
      as (w1 & E & Ht & Hk & Hq & Hh).
    rewrite E. cbv beta iota. exists w1. split; [done|].
    destruct w. simpl in *. split_and!; try done.
    intros ? o [= <-]. apply Hh.
  - simpl. eexists. split; [reflexivity|]. by destruct w.
Qed.

(** C6.  The destructor does three things, in this order: it resets
    [shell_], it resets the thread host, which joins every thread of the
    host, and it deletes the pthread key.  The trace of a destruction is
    the reset of the shell, then the reset of the host with the exits of
    the threads it manages, each joined once, and last the deletion of the
    key.  Afterwards the objects of the shell are gone, the loops of the
    host are gone, and the key is released.  A failing [pthread_key_delete]
    stops the process at the check, after the first two steps. *)
Theorem destructor_order (s : State) :
  let h := this s in
  let key := thread_destruct_key_ h in
  let rc := os_pthread_key_delete env key in
  if decide (rc = 0) then
    ∃ s' exits,
      AndroidShellHolder_delete env s = Ok (tt, s') ∧
      trace (world s') =
        trace (world s) ++
        [EvShellReset (bool_decide (shell_ h ≠ None)); EvThreadHostReset] ++
        exits ++ [EvKeyDelete key rc] ∧
      Forall is_thread_exit_event exits ∧
      joined_threads exits = hosted_threads (thread_host_ h) ∧
      shell_ (this s') = None ∧
      (∀ sh o, shell_ h = Some sh → o ∈ shell_objects sh →
               heap (world s') !! o = None) ∧
      thread_host_ (this s') = ThreadHost_empty ∧
      (∀ t, t ∈ hosted_threads (thread_host_ h) → queues (world s') !! t = None) ∧
      key ∉ keys (world s')
  else
    AndroidShellHolder_delete env s = Crash (CheckFailed "pthread_key_delete").
Proof.
  intros h key rc.
  destruct (shell_reset_spec s) as (w1 & E1 & Ht1 & Hk1 & Hq1 & Hh1).
  destruct (ThreadHost_Reset_spec (thread_host_ h) w1)
    as (w2 & exits & E2 & Hh2 & Hk2 & Hq2 & Ht2 & HF & Hj).
  assert (AndroidShellHolder_delete env s =
          if bool_decide (rc = 0)
          then Ok (tt, set_thread_host_ ThreadHost_empty
                         (set_shell_ None
                            (mkState h (emit (EvKeyDelete key rc)
                                          (set_keys (keys w2 ∖ {[key]}) w2)))))
          else Crash (CheckFailed "pthread_key_delete")) as ->.
  { unfold AndroidShellHolder_delete. unfold bind at 1. rewrite E1.
    unfold bind at 1, get at 1. unfold bind at 1, in_world at 1, zoom.
    cbn [this world set_shell_ thread_host_]. fold h. rewrite E2.
    unfold bind at 1, modify at 1. unfold bind at 1, in_world, zoom.
    cbn [this world set_shell_ set_thread_host_ thread_destruct_key_].
    fold key. unfold pthread_key_delete. fold rc. unfold FXL_CHECK.
    by destruct (bool_decide (rc = 0)). }
  destruct (decide (rc = 0)) as [Hrc|Hrc].
  - rewrite bool_decide_eq_true_2 by done. eexists _, exits.
    split; [reflexivity|]. cbn [this world shell_ thread_host_].
    destruct w2 as [sc2 ks2 tl2 qs2 hp2 no2 tr2]. simpl in *.
    split_and!; try done.
    + rewrite Ht2, Ht1. by rewrite <- !app_assoc.
    + intros sh o Hs Ho. rewrite Hh2. by eapply Hh1.
    + rewrite elem_of_difference, elem_of_singleton. by intros [_ ?].
  - by rewrite bool_decide_eq_false_2 by done.
Qed.

(** ** Further properties of the code *)

(** *** The constructor and the rest of the world *)

Lemma lookup_ensure_loop_keep self (q : gmap ThreadId (list Task)) t :
  t ≠ self ∨ q !! t ≠ None → ensure_loop self q !! t = q !! t.
Proof.
  intros H. unfold ensure_loop. destruct (q !! self) eqn:Hs; [done|].
  destruct (decide (self = t)) as [->|Hne]; [|by rewrite lookup_insert_ne].
  destruct H; congruence.
Qed.

Lemma lookup_ensure_loop_self self (q : gmap ThreadId (list Task)) :
  ensure_loop self q !! self = Some (default [] (q !! self)).
Proof.
  unfold ensure_loop. destruct (q !! self) eqn:Hs; simpl; [done|].
  by rewrite lookup_insert_eq.
Qed.

Lemma not_elem_of_workers (t a b c : ThreadId) :
  t ∉ [a; b; c] → a ≠ t ∧ b ≠ t ∧ c ≠ t.
Proof. intros H. split_and!; intros <-; apply H; set_solver. Qed.

Ltac frame_queues :=
  lazymatch goal with
  | |- _ !! ?self ≠ None =>
      rewrite ?lookup_insert_ne by (intros <-; simplify_map_eq)
  | _ => idtac
  end.

Lemma AndroidShellHolder_new_frame self settings java w h w' :
  AndroidShellHolder_new env self settings java w = Ok (h, w') →
  constructed_frame env self w h w'.
Proof.
  destruct w as [sc ks tl qs hp no tr].
  unfold AndroidShellHolder_new.
  mstep. unfold bind at 1, pthread_key_create at 1. simpl.
  destruct (os_pthread_key_create env ks) as [rc key] eqn:Hkc. simpl.
  unfold bind at 1, FXL_CHECK at 1.
  case_bool_decide as Hrc; [|done]. subst rc. simpl.
  unfold bind at 1. rewrite ThreadHost_new_workers. simpl.
  mstep. post_step. mstep. post_step.
  unfold GetTaskRunner.
  unfold bind at 1. rewrite EnsureInitialized_eq. simpl.
  mstep. unfold bind at 1, Shell_Create at 1.
  match goal with |- context [ Shell_Create_outcome ?e ?r ?s ] =>
    destruct (Shell_Create_outcome e r s) eqn:Hout end.
  - simpl. unfold bind at 1; simpl. unfold bind at 1; simpl.
    unfold FXL_DCHECK at 1, FXL_CHECK.
    destruct (dchecks_enabled env) eqn:Hd; simpl; [done|].
    intros [= <- <-]. split; simpl; try done.
    + by rewrite lookup_ensure_loop_self.
    + intros t (? & ? & ?)%not_elem_of_workers Hs.
      rewrite lookup_ensure_loop_keep; rewrite !lookup_insert_ne by done; done.
    + intros (? & ? & ?)%not_elem_of_workers Hq.
      rewrite lookup_ensure_loop_self. rewrite !lookup_insert_ne by done.
      by rewrite Hq.
  - simpl. unfold bind at 1; simpl. unfold bind at 1; simpl.
    unfold FXL_DCHECK at 1, FXL_CHECK.
    rewrite lookup_delete_eq.
    rewrite bool_decide_eq_false_2 by (by intros [? [=]]).
    destruct (dchecks_enabled env) eqn:Hd; simpl; [done|].
    intros [= <- <-]. split; simpl; try done.
    + by rewrite lookup_ensure_loop_self.
    + intros t (? & ? & ?)%not_elem_of_workers Hs.
      rewrite lookup_ensure_loop_keep; rewrite !lookup_insert_ne by done; done.
    + intros (? & ? & ?)%not_elem_of_workers Hq.
      rewrite lookup_ensure_loop_self. rewrite !lookup_insert_ne by done.
      by rewrite Hq.
    + intros id Hid. rewrite !lookup_delete_ne by lia.
      by rewrite !lookup_insert_ne by lia.
    + intros _. rewrite lookup_delete_eq.
      apply bool_decide_eq_false_2. by intros [? [=]].
  - simpl. unfold bind at 1; simpl. unfold bind at 1; simpl.
    unfold FXL_DCHECK at 1, FXL_CHECK.
    rewrite lookup_insert_ne by lia. rewrite lookup_insert_ne by lia.
    rewrite lookup_insert_eq.
    rewrite bool_decide_eq_true_2 by eauto.
    replace (if dchecks_enabled env then ret () else ret ())
      with (@ret World _ ()) by (by destruct (dchecks_enabled env)).
    unfold ret at 1. simpl. unfold bind at 1. unfold bind at 1.
    erewrite PostTask_Some; [|simpl; queue_lookup]. simpl.
    unfold enqueue. simpl. rewrite lookup_insert_ne by done.
    erewrite (lookup_ensure_loop_Some _ _ (HostedThread _ UI))
      by (by simplify_map_eq).
    simpl. intros [= <- <-]. split; simpl; try done.
    + destruct (decide (HostedThread (pretty sc) UI = self)) as [<-|?];
        [by rewrite lookup_insert_eq|rewrite lookup_insert_ne by done].
      destruct (decide (HostedThread (pretty sc) GPU = self)) as [<-|?];
        [by rewrite lookup_insert_eq|rewrite lookup_insert_ne by done].
      by rewrite lookup_ensure_loop_self.
    + intros t (? & ? & ?)%not_elem_of_workers Hs.
      rewrite !lookup_insert_ne by done.
      rewrite lookup_ensure_loop_keep; rewrite !lookup_insert_ne by done; done.
    + intros (? & ? & ?)%not_elem_of_workers Hq.
      rewrite !lookup_insert_ne by done.
      rewrite lookup_ensure_loop_self. rewrite !lookup_insert_ne by done.
      by rewrite Hq.
    + intros id Hid. by rewrite !lookup_insert_ne by lia.
Qed.



(** [GetSettings] answers the settings the holder was constructed with,
    whatever happened since, and changes nothing. *)
Theorem GetSettings_returns_constructor_settings self settings java w h w'
    (sts : list Step) (s' : State) :
  AndroidShellHolder_new env self settings java w = Ok (h, w') →
  steps env sts (mkState h w') = Ok (tt, s') →
  GetSettings s' = Ok (settings, s').
Proof.
  intros Hnew Hsts. apply AndroidShellHolder_new_constructed in Hnew as C.
  apply steps_frame in Hsts as (Ht & _). simpl in Ht.
  unfold GetSettings, bind, get, ret. by rewrite Ht, (c_settings _ _ _ _ _ _ _ C).
Qed.

(** The construction leaves the rest of the world alone: the loops of all
    threads other than the three new workers keep their pending tasks, the
    calling thread has a loop afterwards (an empty one if it had none),
    the thread-specific values, the objects that existed and the trace are
    as before. *)
Theorem construction_leaves_other_loops_alone self settings java w h w' :
  AndroidShellHolder_new env self settings java w = Ok (h, w') →
  queues w' !! self ≠ None ∧
  (∀ t ts, t ∉ hosted_threads (thread_host_ h) →
           queues w !! t = Some ts → queues w' !! t = Some ts) ∧
  (∀ t, t ∉ hosted_threads (thread_host_ h) → t ≠ self →
        queues w' !! t = queues w !! t) ∧
  (self ∉ hosted_threads (thread_host_ h) → queues w !! self = None →
   queues w' !! self = Some []) ∧
  tls w' = tls w ∧
  (∀ id, (id < next_obj w)%nat → heap w' !! id = heap w !! id) ∧
  trace w' = trace w.
Proof.
  intros Hnew. apply AndroidShellHolder_new_constructed in Hnew as C.
  apply AndroidShellHolder_new_frame in Hnew as F.
  split_and!; try apply F; try apply C.
  - intros t ts Ht Hq. rewrite (cf_other_queues _ _ _ _ _ F t Ht); [done|].
    right. by rewrite Hq.
  - intros t Ht Hne. apply (cf_other_queues _ _ _ _ _ F t Ht). by left.
Qed.


(** *** Tasks on a live engine *)

Lemma run_ViewportTask_live tid e metrics w :
  heap w !! e ≠ None →
  run_task env tid (ViewportTask (Some e) metrics) w =
  Ok (tt, emit (EvEngineSetViewportMetrics e metrics) w).
Proof.
  intros Hl. simpl. unfold bind, get, WeakPtr_deref. simpl.
  rewrite bool_decide_eq_true_2 by (by destruct (heap w !! e)). simpl.
  by rewrite bool_decide_eq_true_2 by (by destruct (heap w !! e)).
Qed.

Lemma emit_emits e w : emit e w = emits [e] w.
Proof. done. Qed.

(** On a valid holder that was constructed, after any history of calls and
    loop turns the tasks that [Launch], [SetViewportMetrics] and
    [DispatchPointerDataPacket] post find the engine alive.  The launch
    task calls [Engine::Run] once and logs once exactly when the run
    reports failure; the viewport task hands the metrics it captured to
    the engine; the pointer task hands over its packet.  None of them
    changes anything but the trace. *)
Theorem engine_tasks_reach_live_engine (s : State) (config : RunConfiguration)
    (metrics : ViewportMetrics) (p : PointerDataPacket) :
  reachable env s → is_valid_ (this s) = true →
  ∃ sh e,
    shell_ (this s) = Some sh ∧ Shell_GetEngine sh = Some e ∧
    ∀ sts s2 tid,
      steps env sts s = Ok (tt, s2) →
      run_task env tid (LaunchTask (Shell_GetEngine sh) config) (world s2) =
        Ok (tt, emits (EvEngineRun e config (Engine_Run env config) ::
                       if Engine_Run env config then []
                       else [EvLogError "Could not launch engine in configuration."])
                  (world s2)) ∧
      run_task env tid (ViewportTask (Shell_GetEngine sh) metrics) (world s2) =
        Ok (tt, emits [EvEngineSetViewportMetrics e metrics] (world s2)) ∧
      run_task env tid (PointerTask (Shell_GetEngine sh) (Some p)) (world s2) =
        Ok (tt, emits [EvEngineDispatchPointerDataPacket e p] (world s2)).
Proof.
  intros Hr Hv.
  destruct (reachable_valid_shell s Hr Hv) as (sh & e & ts & Hs & He & Hle & _).
  exists sh, e. split; [done|]. split; [done|].
  intros sts s2 tid Hsts. apply steps_frame in Hsts as (_ & Hh & _).
  assert (heap (world s2) !! e ≠ None) as Hle2 by (by rewrite Hh).
  unfold Shell_GetEngine. rewrite He. split_and!.
  - rewrite (run_LaunchTask_live _ _ _ _ Hle2).
    destruct (Engine_Run env config); [done|].
    by rewrite emit_emits, emits_emit.
  - by rewrite (run_ViewportTask_live _ _ _ _ Hle2).
  - by rewrite (run_PointerTask_live _ _ _ _ Hle2).
Qed.

(** *** Calls in sequence *)

Lemma call_valid c s sh ts :
  reachable env s → is_valid_ (this s) = true →
  shell_ (this s) = Some sh →
  queues (world s) !! ui_runner (shell_task_runners sh) = Some ts →
  ∃ r w',
    call env c s = Ok (r, mkState (this s) w') ∧
    queues w' =
      <[ui_runner (shell_task_runners sh) := ts ++ option_list (call_task sh c)]>
        (queues (world s)) ∧
    trace w' = trace (world s) ++ option_list (call_event c) ∧
    heap w' = heap (world s).
Proof.
  intros Hr Hv Hs Hq. destruct s as [h w]. simpl in *.
  destruct c; simpl; unfold bind.
  - eexists _, w. rewrite !app_nil_r, insert_id by done. by split_and!.
  - eexists _, w. rewrite !app_nil_r, insert_id by done. by split_and!.
  - rewrite (Launch_valid _ _ sh) by done. simpl.
    rewrite (enqueue_Some _ _ _ _ Hq). eexists _, _. split; [done|].
    destruct w; simpl. by rewrite app_nil_r.
  - rewrite (SetViewportMetrics_valid _ _ sh) by done. simpl.
    rewrite (enqueue_Some _ _ _ _ Hq). eexists _, _. split; [done|].
    destruct w; simpl. by rewrite app_nil_r.
  - rewrite (DispatchPointerDataPacket_valid _ _ sh) by done. simpl.
    rewrite (enqueue_Some _ _ _ _ Hq). eexists _, _. split; [done|].
    destruct w; simpl. by rewrite app_nil_r.
  - rewrite (Screenshot_valid _ _ _ sh) by done. simpl.
    eexists _, _. split; [done|]. destruct w; simpl in *.
    rewrite app_nil_r, insert_id by done. by split_and!.
  - rewrite GetPlatformView_cases. simpl.
    destruct (reachable_inv _ Hr) as (_ & _ & I). simpl in I.
    destruct (I Hv) as (sh' & pv & e & _ & _ & _ & _ & Hp & Hpv & _).
    rewrite Hp. simpl. rewrite Hpv.
    rewrite bool_decide_eq_true_2 by eauto. rewrite andb_false_r.
    eexists _, w. rewrite !app_nil_r, insert_id by done. by split_and!.
Qed.

(** On a valid holder that was constructed, any sequence of calls returns;
    the queue of the UI thread grows by one task per [Launch],
    [SetViewportMetrics] and [DispatchPointerDataPacket], in the order of
    the calls, and by nothing else; no other queue changes; the only calls
    that leave the holder within the sequence are those of [Screenshot]
    into the shell, in order. *)
Theorem calls_post_in_order (cs : list Call) (s : State) :
  reachable env s → is_valid_ (this s) = true →
  ∃ sh ts rs s',
    shell_ (this s) = Some sh ∧
    queues (world s) !! ui_runner (shell_task_runners sh) = Some ts ∧
    calls env cs s = Ok (rs, s') ∧
    length rs = length cs ∧
    this s' = this s ∧
    queues (world s') =
      <[ui_runner (shell_task_runners sh) := ts ++ omap (call_task sh) cs]>
        (queues (world s)) ∧
    trace (world s') = trace (world s) ++ omap call_event cs.
Proof.
  intros Hr Hv.
  destruct (reachable_valid_shell s Hr Hv) as (sh & e & ts & Hs & _ & _ & _ & Hq).
  exists sh, ts. revert s ts Hr Hv Hs Hq.
  induction cs as [|c cs IH]; intros s ts Hr Hv Hs Hq.
  - exists [], s. simpl. rewrite !app_nil_r. split_and!; try done.
    by rewrite insert_id.
  - destruct (call_valid c s sh ts Hr Hv Hs Hq) as (r & w1 & Hc & Hq1 & Ht1 & Hh1).
    assert (reachable env (mkState (this s) w1)) as Hr1.
    { apply (reachable_step _ s (StepCall c)); [done|].
      simpl. unfold bind. by rewrite Hc. }
    destruct (IH (mkState (this s) w1)
                (ts ++ option_list (call_task sh c)) Hr1 Hv Hs)
      as (rs & s' & _ & _ & Hcs & Hlen & Ht & Hq' & Htr).
    { simpl. rewrite Hq1. by rewrite lookup_insert_eq. }
    exists (r :: rs), s'. simpl in *. unfold bind. rewrite Hc, Hcs.
    split_and!; try done.
    + by rewrite Hlen.
    + rewrite Hq', Hq1, insert_insert_eq.
      destruct (call_task sh c); simpl; by rewrite <- ?app_assoc, ?app_nil_r.
    + rewrite Htr, Ht1.
      destruct (call_event c); simpl; by rewrite <- ?app_assoc, ?app_nil_r.
Qed.


(** *** Invalid holders *)

Lemma reachable_invalid_handle s :
  reachable env s → is_valid_ (this s) = false →
  WeakPtr_bool (world s) (platform_view_ (this s)) = false.
Proof.
  induction 1 as [self settings java w h w' Hnew | s st s' _ IH Hst].
  - apply AndroidShellHolder_new_frame in Hnew. apply Hnew.
  - apply step_frame in Hst as (Ht & Hh & _). rewrite Ht. intros Hv.
    specialize (IH Hv). destruct (platform_view_ (this s)); [|done].
    simpl in *. by rewrite Hh.
Qed.

(** An invalid holder exists only where debug checks are compiled out.
    Its platform view handle is never alive, and [GetPlatformView] hands
    out that dead handle without complaint: a caller has to test what it
    gets. *)
Theorem invalid_holder_hands_out_dead_handle (s : State) :
  reachable env s → is_valid_ (this s) = false →
  dchecks_enabled env = false ∧
  GetPlatformView env s = Ok (platform_view_ (this s), s) ∧
  WeakPtr_bool (world s) (platform_view_ (this s)) = false.
Proof.
  intros Hr Hv. destruct (reachable_inv _ Hr) as (_ & I2 & _).
  assert (dchecks_enabled env = false) as Hd.
  { destruct (dchecks_enabled env); [|done]. rewrite I2 in Hv; done. }
  split; [done|]. rewrite GetPlatformView_cases, Hd. split; [done|].
  by apply reachable_invalid_handle.
Qed.

(** *** Several holders *)

Lemma call_world c s r s' :
  call env c s = Ok (r, s') →
  world s' = world s ∨
  (∃ runner t, world s' = enqueue runner t (world s)) ∨
  (∃ e, world s' = emit e (world s)).
Proof.
  destruct s as [h w].
  destruct c; simpl; unfold bind.
  - intros [= _ <-]. by left.
  - intros [= _ <-]. by left.
  - destruct (is_valid_ h) eqn:Hv.
    + destruct (shell_ h) as [sh|] eqn:Hs.
      * rewrite (Launch_valid _ _ sh) by done. intros [= _ <-]. right. left. eauto.
      * unfold Launch. by run_method.
    + rewrite Launch_invalid by done. intros [= _ <-]. by left.
  - destruct (is_valid_ h) eqn:Hv.
    + destruct (shell_ h) as [sh|] eqn:Hs.
      * rewrite (SetViewportMetrics_valid _ _ sh) by done. intros [= _ <-].
        right. left. eauto.
      * unfold SetViewportMetrics. by run_method.
    + rewrite SetViewportMetrics_invalid by done. intros [= _ <-]. by left.
  - destruct (is_valid_ h) eqn:Hv.
    + destruct (shell_ h) as [sh|] eqn:Hs.
      * rewrite (DispatchPointerDataPacket_valid _ _ sh) by done.
        intros [= _ <-]. right. left. eauto.
      * unfold DispatchPointerDataPacket. by run_method.
    + rewrite DispatchPointerDataPacket_invalid by done. intros [= _ <-]. by left.
  - destruct (is_valid_ h) eqn:Hv.
    + destruct (shell_ h) as [sh|] eqn:Hs.
      * rewrite (Screenshot_valid _ _ _ sh) by done. intros [= _ <-].
        right. right. eauto.
      * unfold Screenshot. by run_method.
    + rewrite Screenshot_invalid by done. intros [= _ <-]. by left.
  - rewrite GetPlatformView_cases.
    destruct (_ && _); [done|]. intros [= _ <-]. by left.
Qed.

Lemma enqueue_shell_count runner t w :
  shell_count (enqueue runner t w) = shell_count w.
Proof. unfold enqueue. by destruct (queues w !! runner). Qed.

Lemma run_task_shell_count tid t w w' :
  run_task env tid t w = Ok (tt, w') → shell_count w' = shell_count w.
Proof.
  destruct w as [sc ks tl qs hp no tr].
  destruct t; simpl; unfold bind, get, setpriority, pthread_setspecific,
    FXL_CHECK, FXL_LOG_ERROR, modify, bind, ret, crash, WeakPtr_deref; simpl.
  - repeat case_bool_decide; simpl; try done; by intros [= <-].
  - repeat case_bool_decide; simpl; by intros [= <-].
  - repeat case_bool_decide; simpl; by intros [= <-].
  - destruct engine as [e|]; simpl; [|by intros [= <-]].
    destruct (bool_decide (is_Some (hp !! e))) eqn:Hb; simpl; rewrite ?Hb; simpl;
      [|by intros [= <-]].
    destruct (Engine_Run env config); simpl; by intros [= <-].
  - destruct engine as [e|]; simpl; [|by intros [= <-]].
    destruct (bool_decide (is_Some (hp !! e))) eqn:Hb; simpl; rewrite ?Hb; simpl;
      by intros [= <-].
  - destruct engine as [e|]; simpl; [|by intros [= <-]].
    destruct (bool_decide (is_Some (hp !! e))) eqn:Hb; simpl; rewrite ?Hb; simpl;
      [|by intros [= <-]].
    destruct packet; simpl; [|done]. by intros [= <-].
Qed.

Lemma step_shell_count st s s' :
  step env st s = Ok (tt, s') → shell_count (world s') = shell_count (world s).
Proof.
  destruct st as [c|tid]; simpl.
  - unfold bind. destruct (call env c s) as [[r s1]|] eqn:Hc; [|done].
    intros [= <-].
    destruct (call_world _ _ _ _ Hc) as [->|[(? & ? & ->)|(? & ->)]]; try done.
    apply enqueue_shell_count.
  - unfold in_world, zoom.
    destruct (run_next_task env tid (world s)) as [[[] w1]|] eqn:Hr; [|done].
    intros [= <-]. simpl. revert Hr. unfold run_next_task, bind, get. simpl.
    destruct (queues (world s) !! tid) as [[|t rest]|]; try (by intros [= <-]).
    unfold modify. intros H%run_task_shell_count. by rewrite H.
Qed.

Lemma steps_shell_count sts s s' :
  steps env sts s = Ok (tt, s') → shell_count (world s') = shell_count (world s).
Proof.
  revert s. induction sts as [|st sts IH]; intros s; simpl.
  - by intros [= <-].
  - unfold bind. destruct (step env st s) as [[[] s1]|] eqn:Hst; [|done].
    intros H. apply step_shell_count in Hst. apply IH in H. congruence.
Qed.

Lemma shell_count_moves_on sc bits :
  0 < bits → (sc + 1) mod 2 ^ bits ≠ sc.
Proof.
  intros Hb Heq.
  assert (2 ≤ 2 ^ bits) as Hm.
  { change 2 with (2 ^ 1) at 1. apply Z.pow_le_mono_r; lia. }
  pose proof (Z.mod_pos_bound (sc + 1) (2 ^ bits) ltac:(lia)) as Hr.
  rewrite Heq in Hr.
  destruct (decide (sc + 1 < 2 ^ bits)) as [Hlt|Hge].
  - rewrite Z.mod_small in Heq by lia. lia.
  - assert (sc + 1 = 2 ^ bits) as Hsc by lia.
    rewrite Hsc, Z.mod_same in Heq by lia. lia.
Qed.

(** A holder constructed while another one is alive gets threads of its
    own: the counter behind the thread label has moved on, so no thread of
    the first holder is a thread of the second, and the second
    construction leaves the queues of the first holder's threads as they
    are. *)
Theorem second_holder_has_its_own_threads self1 settings1 java1 w h1 w1
    (sts : list Step) (s1 : State) self2 settings2 java2 h2 w2 :
  0 < size_t_bits env →
  AndroidShellHolder_new env self1 settings1 java1 w = Ok (h1, w1) →
  steps env sts (mkState h1 w1) = Ok (tt, s1) →
  AndroidShellHolder_new env self2 settings2 java2 (world s1) = Ok (h2, w2) →
  ∀ t, t ∈ hosted_threads (thread_host_ h1) →
       (t ∉ hosted_threads (thread_host_ h2)) ∧
       queues (world s1) !! t ≠ None ∧
       queues w2 !! t = queues (world s1) !! t.
Proof.
  intros Hbits Hnew1 Hsts Hnew2 t Ht.
  apply AndroidShellHolder_new_constructed in Hnew1 as C1.
  apply AndroidShellHolder_new_frame in Hnew1 as F1.
  apply AndroidShellHolder_new_constructed in Hnew2 as C2.
  apply AndroidShellHolder_new_frame in Hnew2 as F2.
  apply steps_shell_count in Hsts as Hsc. simpl in Hsc.
  apply steps_frame in Hsts as (_ & _ & Hdom). simpl in Hdom.
  assert (pretty (shell_count (world s1)) ≠ pretty (shell_count w)) as Hlbl.
  { intros Heq. apply (inj pretty) in Heq.
    rewrite Hsc, (cf_shell_count _ _ _ _ _ F1) in Heq.
    by eapply shell_count_moves_on. }
  assert (t ∉ hosted_threads (thread_host_ h2)) as Hnot.
  { rewrite (c_thread_host _ _ _ _ _ _ _ C1) in Ht.
    rewrite (c_thread_host _ _ _ _ _ _ _ C2).
    unfold hosted_threads, ctor_runners in *. simpl in *.
    set_unfold. intros Hin. destruct Ht as [->|[->|[->|[]]]];
      destruct Hin as [[=]|[[=]|[[=]|[]]]]; congruence. }
  assert (queues (world s1) !! t ≠ None) as Hq.
  { intros Hn%not_elem_of_dom. rewrite Hdom in Hn. apply Hn, elem_of_dom.
    rewrite (c_thread_host _ _ _ _ _ _ _ C1) in Ht.
    unfold hosted_threads in Ht. simpl in Ht. set_unfold in Ht.
    pose proof (c_ui_queue _ _ _ _ _ _ _ C1) as Hu.
    pose proof (c_gpu_queue _ _ _ _ _ _ _ C1) as Hg.
    pose proof (c_io_queue _ _ _ _ _ _ _ C1) as Hi. simpl in Hu, Hg, Hi.
    destruct Ht as [->|[->|[->|[]]]]; [rewrite Hu|rewrite Hg|rewrite Hi]; eauto. }
  split_and!; try done.
  apply (cf_other_queues _ _ _ _ _ F2 t Hnot). by right.
Qed.


(** *** The first turns of a worker loop *)








(** *** Detaching at teardown *)

Lemma detaches_app tid tr1 tr2 :
  detaches tid (tr1 ++ tr2) = (detaches tid tr1 + detaches tid tr2)%nat.
Proof. unfold detaches. by rewrite filter_app, length_app. Qed.

Lemma detaches_replicate tid t n :
  detaches tid (replicate n (EvDetachFromVM t)) =
  if decide (t = tid) then n else 0%nat.
Proof.
  unfold detaches. induction n as [|n IH]; simpl.
  - by destruct (decide (t = tid)).
  - rewrite filter_cons. simpl. destruct (decide (t = tid)) as [->|Hne].
    + rewrite bool_decide_eq_true_2 by done. simpl. by rewrite IH.
    + rewrite bool_decide_eq_false_2 by done. simpl. by rewrite IH.
Qed.

Lemma armed_keys_ext w w' tid :
  keys w' = keys w →
  (∀ k, default 0 (tls w' !! (k, tid)) = default 0 (tls w !! (k, tid))) →
  armed_keys w' tid = armed_keys w tid.
Proof.
  intros Hk Ht. unfold armed_keys. rewrite Hk.
  apply list_filter_iff. intros k. by rewrite Ht.
Qed.

Lemma armed_keys_cleared (w' : World) tid :
  (∀ k, tls w' !! (k, tid) = None) → armed_keys w' tid = [].
Proof.
  intros Ht. unfold armed_keys.
  induction (elements (keys w')) as [|k l IH]; [done|].
  rewrite filter_cons, Ht. simpl. by try case_decide.
Qed.

(** Joining [t]: the thread detaches once per key armed on it, its
    thread-specific values are gone afterwards, and those of every other
    thread are as before. *)
Lemma Thread_join_detaches t w tid :
  ∃ w',
    Thread_join t w = Ok (tt, w') ∧
    keys w' = keys w ∧
    detaches tid (trace w') =
      (detaches tid (trace w) +
       if decide (t = Some tid) then length (armed_keys w tid) else 0)%nat ∧
    armed_keys w' tid =
      if decide (t = Some tid) then [] else armed_keys w tid.
Proof.
  destruct t as [t|]; simpl.
  - eexists. split; [reflexivity|]. rewrite run_key_destructors_emits.
    destruct w as [sc ks tl qs hp no tr].
    unfold emit, set_tls, emits, set_queues. simpl. split; [done|]. split.
    + rewrite !detaches_app, detaches_replicate.
      destruct (decide (t = tid)) as [->|Hne].
      * rewrite decide_True by done.
        change (detaches tid [EvThreadJoined tid]) with 0%nat.
        unfold armed_keys. simpl. lia.
      * rewrite decide_False by congruence.
        change (detaches tid [EvThreadJoined t]) with 0%nat. lia.
    + destruct (decide (t = tid)) as [->|Hne].
      * rewrite decide_True by done. apply armed_keys_cleared. intros k. simpl.
        apply map_lookup_filter_None. right. intros x _. simpl. by intros ?.
      * rewrite decide_False by congruence. apply armed_keys_ext; [done|].
        intros k. simpl. destruct (tl !! (k, tid)) as [v|] eqn:Hl.
        -- erewrite (proj2 (map_lookup_filter_Some _ _ _ _)); [done|].
           split; [done|]. simpl. congruence.
        -- rewrite (proj2 (map_lookup_filter_None _ _ _)); [done|]. by left.
  - exists w. split; [done|]. split; [done|].
    destruct (decide (None = Some tid)); [done|]. split; [lia|done].
Qed.

Lemma elem_of_hosted_threads th tid :
  tid ∈ hosted_threads th ↔
  platform_thread th = Some tid ∨ ui_thread th = Some tid ∨
  gpu_thread th = Some tid ∨ io_thread th = Some tid.
Proof.
  destruct th as [p u g i]. unfold hosted_threads.
  cbn [platform_thread ui_thread gpu_thread io_thread].
  rewrite list_elem_of_omap. split.
  - intros (y & Hy & Heq). simpl in Heq. subst y.
    rewrite !elem_of_cons, elem_of_nil in Hy. intuition.
  - intros H. exists (Some tid). split; [|done].
    rewrite !elem_of_cons. intuition.
Qed.

Lemma ThreadHost_Reset_detaches th w tid :
  ∃ w',
    ThreadHost_Reset th w = Ok (ThreadHost_empty, w') ∧
    detaches tid (trace w') =
      (detaches tid (trace w) +
       if decide (tid ∈ hosted_threads th)
       then length (armed_keys w tid) else 0)%nat.
Proof.
  unfold ThreadHost_Reset. unfold bind at 1. simpl.
  destruct (Thread_join_detaches (platform_thread th) (emit EvThreadHostReset w) tid)
    as (w1 & E1 & Hk1 & Hd1 & Ha1).
  unfold bind at 1. rewrite E1.
  destruct (Thread_join_detaches (ui_thread th) w1 tid)
    as (w2 & E2 & Hk2 & Hd2 & Ha2).
  unfold bind at 1. rewrite E2.
  destruct (Thread_join_detaches (gpu_thread th) w2 tid)
    as (w3 & E3 & Hk3 & Hd3 & Ha3).
  unfold bind at 1. rewrite E3.
  destruct (Thread_join_detaches (io_thread th) w3 tid)
    as (w4 & E4 & Hk4 & Hd4 & Ha4).
  unfold bind at 1. rewrite E4. simpl.
  exists w4. split; [done|].
  assert (armed_keys (emit EvThreadHostReset w) tid = armed_keys w tid) as Ha0
    by (by destruct w).
  assert (detaches tid (trace (emit EvThreadHostReset w)) = detaches tid (trace w))
    as Hd0.
  { destruct w. simpl. rewrite detaches_app.
    change (detaches tid [EvThreadHostReset]) with 0%nat. lia. }
  rewrite Hd4, Hd3, Hd2, Hd1, Hd0, Ha3, Ha2, Ha1, Ha0.
  clear. destruct th as [p u g i]. simpl.
  destruct (decide (p = Some tid)) as [->|Hp];
    destruct (decide (u = Some tid)) as [->|Hu];
    destruct (decide (g = Some tid)) as [->|Hg];
    destruct (decide (i = Some tid)) as [->|Hi]; simpl;
    try (rewrite decide_True by (apply elem_of_hosted_threads; simpl; tauto);
         simpl; lia).
  rewrite decide_False; [lia|].
  rewrite elem_of_hosted_threads. simpl. tauto.
Qed.

Lemma shell_reset_armed s tid :
  ∃ s1,
    shell_reset s = Ok (tt, s1) ∧
    thread_host_ (this s1) = thread_host_ (this s) ∧
    thread_destruct_key_ (this s1) = thread_destruct_key_ (this s) ∧
    armed_keys (world s1) tid = armed_keys (world s) tid ∧
    detaches tid (trace (world s1)) = detaches tid (trace (world s)).
Proof.
  destruct s as [h w].
  cbv beta iota zeta delta [shell_reset bind get in_world zoom modify this world ret].
  destruct (shell_ h) as [sh|] eqn:Hs.
  - unfold Shell_dtor, bind, destroy, modify. eexists. split; [reflexivity|].
    destruct sh as [rs st [pv|] [r|] [e|]]; destruct w; simpl;
      split_and!; try done; rewrite detaches_app;
      change (detaches tid [EvShellReset true]) with 0%nat; lia.
  - eexists. split; [reflexivity|]. destruct w; simpl.
    split_and!; try done. rewrite detaches_app.
    change (detaches tid [EvShellReset false]) with 0%nat. lia.
Qed.

(** When the holder is destroyed and the key can be deleted, each thread
    of its host detaches from the VM once for every key armed on it at
    that moment, and no other thread detaches.  A managed thread that ran
    the thread-exit task of this holder has the holder's key armed: the
    key is still in use while the threads are joined, so the thread does
    detach. *)
Theorem destructor_detaches_armed_threads (s : State) (tid : ThreadId) :
  os_pthread_key_delete env (thread_destruct_key_ (this s)) = 0 →
  ∃ s',
    AndroidShellHolder_delete env s = Ok (tt, s') ∧
    detaches tid (trace (world s')) =
      (detaches tid (trace (world s)) +
       if decide (tid ∈ hosted_threads (thread_host_ (this s)))
       then length (armed_keys (world s) tid) else 0)%nat ∧
    (thread_destruct_key_ (this s) ∈ keys (world s) →
     tls (world s) !! (thread_destruct_key_ (this s), tid) = Some 1 →
     thread_destruct_key_ (this s) ∈ armed_keys (world s) tid).
Proof.
  intros Hrc.
  destruct (shell_reset_armed s tid) as (s1 & E1 & Hth & Hkey & Ha1 & Hd1).
  destruct (ThreadHost_Reset_detaches (thread_host_ (this s)) (world s1) tid)
    as (w2 & E2 & Hd2).
  eexists. split; [|split].
  - unfold AndroidShellHolder_delete. unfold bind at 1. rewrite E1.
    unfold bind at 1, get at 1. unfold bind at 1, in_world at 1, zoom.
    rewrite Hth, E2.
    unfold bind at 1, modify at 1. unfold bind at 1, in_world, zoom.
    cbn [this world set_thread_host_ thread_destruct_key_].
    rewrite Hkey. unfold pthread_key_delete. rewrite Hrc. simpl. reflexivity.
  - simpl. destruct w2. simpl in *. rewrite detaches_app, Hd2, Hd1, Ha1.
    change (detaches tid [EvKeyDelete _ _]) with 0%nat. lia.
  - intros Hin Htls. unfold armed_keys. apply list_elem_of_filter.
    split; [by rewrite Htls|]. by apply elem_of_elements.
Qed.


End Proofs.

(** ** Concrete runs *)

Lemma demo_valid_state_reachable : reachable demo_valid_env demo_valid_state.
Proof.
  change demo_valid_state
    with (mkState (this demo_valid_state) (world demo_valid_state)).
  apply (reachable_new demo_valid_env main_thread true 5%nat initial_world).
  vm_compute. reflexivity.
Qed.

(** In the history [demo_steps] the launch task is the third task the UI
    loop runs; the engine is started once, with the configuration of the
    launch. *)
Example demo_after_steps_runs :
  engine_runs (trace (world demo_after_steps)) = ["main"] ∧
  pending (world demo_after_steps) demo_ui = [].
Proof. split; reflexivity. Qed.

(** The same with the UI loop running until its queue is empty: three
    turns are enough, more fuel changes nothing. *)
Example demo_run_loop :
  ∃ s1 w,
    Launch "main" demo_valid_state = Ok (tt, s1) ∧
    run_loop demo_valid_env 3 demo_ui (world s1) = Ok (tt, w) ∧
    run_loop demo_valid_env 10 demo_ui (world s1) = Ok (tt, w) ∧
    w = world demo_after_steps.
Proof.
  eexists _, _. split; [reflexivity|].
  split; [vm_compute; reflexivity|]. split; vm_compute; reflexivity.
Qed.

(** C1 on the invalid holder of [demo_invalid_state], with one call of
    each guarded operation. *)
Lemma invalid_holder_calls_are_noops_witness :
  is_valid_ (this demo_invalid_state) = false ∧
  forallb guarded_or_getter demo_calls = true ∧
  calls demo_invalid_env demo_calls demo_invalid_state =
  Ok (noop_response (this demo_invalid_state) <$> demo_calls, demo_invalid_state).
Proof.
  split; [reflexivity|]. split; [reflexivity|].
  apply (invalid_holder_calls_are_noops demo_invalid_env demo_calls
           demo_invalid_state); reflexivity.
Defined.

(** C2 as stated fails: a construction on the main thread of a fresh
    process returns a holder that manages three threads, and the queue of
    its IO thread holds no thread-exit task. *)
Lemma jni_exit_task_missing_on_io :
  ¬ (∀ h w',
       AndroidShellHolder_new demo_valid_env main_thread true 5%nat initial_world =
         Ok (h, w') →
       ∀ t, t ∈ hosted_threads (thread_host_ h) →
            length (filter is_jni_exit_task (pending w' t)) = 1%nat).
Proof.
  intros H.
  specialize (H (this demo_valid_state) (world demo_valid_state)).
  assert (AndroidShellHolder_new demo_valid_env main_thread true 5%nat
            initial_world =
          Ok (this demo_valid_state, world demo_valid_state)) as Hnew.
  { vm_compute. reflexivity. }
  specialize (H Hnew demo_io).
  assert (demo_io ∈ hosted_threads (thread_host_ (this demo_valid_state))) as Hin.
  { vm_compute. repeat constructor. }
  specialize (H Hin). vm_compute in H. discriminate.
Qed.

(** C2, as the code has it, on the construction of [demo_valid_state]. *)
Lemma jni_exit_task_on_ui_and_gpu_witness :
  ∃ ui gpu io,
    thread_host_ (this demo_valid_state) =
      mkThreadHost None (Some ui) (Some gpu) (Some io) ∧
    hosted_threads (thread_host_ (this demo_valid_state)) = [ui; gpu; io] ∧
    filter is_jni_exit_task (pending (world demo_valid_state) ui) =
      [JniExitTask (thread_destruct_key_ (this demo_valid_state))] ∧
    filter is_jni_exit_task (pending (world demo_valid_state) gpu) =
      [JniExitTask (thread_destruct_key_ (this demo_valid_state))] ∧
    pending (world demo_valid_state) io = [] ∧
    ∀ tid w0 w1,
      run_task demo_valid_env tid
        (JniExitTask (thread_destruct_key_ (this demo_valid_state))) w0 =
        Ok (tt, w1) →
      tls w1 !! (thread_destruct_key_ (this demo_valid_state), tid) = Some 1.
Proof.
  apply (jni_exit_task_on_ui_and_gpu demo_valid_env main_thread true 5%nat
           initial_world (this demo_valid_state) (world demo_valid_state)).
  vm_compute. reflexivity.
Defined.

(** C3 on the valid holder of [demo_valid_state]. *)
Lemma Launch_runs_engine_once_witness :
  ∃ ui ts engine s1,
    ui_thread (thread_host_ (this demo_valid_state)) = Some ui ∧
    queues (world demo_valid_state) !! ui = Some ts ∧
    Launch "main" demo_valid_state = Ok (tt, s1) ∧
    s1 = posted ui ts (LaunchTask engine "main") demo_valid_state ∧
    ∀ sts s2 tid,
      steps demo_valid_env sts s1 = Ok (tt, s2) →
      ∃ w3,
        run_task demo_valid_env tid (LaunchTask engine "main") (world s2) =
          Ok (tt, w3) ∧
        engine_runs (trace w3) = engine_runs (trace (world s2)) ++ ["main"].
Proof.
  apply (Launch_runs_engine_once demo_valid_env demo_valid_state "main").
  - exact demo_valid_state_reachable.
  - reflexivity.
Defined.

(** C4 where the system rejects both levels: two attempts, one log line,
    and the holder is as valid as before. *)
Lemma gpu_priority_task_falls_back_once_witness :
  filter is_priority_task (pending (world demo_valid_state) demo_gpu) =
    [GpuPriorityTask] ∧
  run_task demo_valid_env demo_gpu GpuPriorityTask (world demo_valid_state) =
    Ok (tt, emits [EvSetPriority demo_gpu (-5) (-1);
                   EvSetPriority demo_gpu (-2) (-1);
                   EvLogError "Failed to set GPU task runner priority"]
              (world demo_valid_state)) ∧
  priority_attempts demo_gpu
    (trace (emits [EvSetPriority demo_gpu (-5) (-1);
                   EvSetPriority demo_gpu (-2) (-1);
                   EvLogError "Failed to set GPU task runner priority"]
              (world demo_valid_state))) =
    priority_attempts demo_gpu (trace (world demo_valid_state)) ++ [-5; -2] ∧
  IsValid (mkState (this demo_valid_state)
             (emits [EvSetPriority demo_gpu (-5) (-1);
                     EvSetPriority demo_gpu (-2) (-1);
                     EvLogError "Failed to set GPU task runner priority"]
                (world demo_valid_state))) =
    Ok (true, mkState (this demo_valid_state)
             (emits [EvSetPriority demo_gpu (-5) (-1);
                     EvSetPriority demo_gpu (-2) (-1);
                     EvLogError "Failed to set GPU task runner priority"]
                (world demo_valid_state))).
Proof.
  destruct (gpu_priority_task_falls_back_once demo_valid_env main_thread true
              5%nat initial_world (this demo_valid_state)
              (world demo_valid_state) demo_gpu (world demo_valid_state))
    as (_ & Hg & _ & _ & Hrun & Hatt & _ & Hv).
  { vm_compute. reflexivity. }
  split; [exact Hg|]. split; [exact Hrun|]. split; [exact Hatt|exact Hv].
Defined.

(** C5 on the invalid and on the valid holder. *)
Lemma Screenshot_spec_witness :
  Screenshot demo_invalid_env 0%nat true demo_invalid_state =
    Ok (mkScreenshot None SkISize_MakeEmpty, demo_invalid_state) ∧
  ∃ s',
    Screenshot demo_valid_env 0%nat true demo_valid_state =
      Ok (mkScreenshot (Some []) (mkSkISize 2 3), s') ∧
    this s' = this demo_valid_state ∧
    queues (world s') = queues (world demo_valid_state) ∧
    trace (world s') =
      trace (world demo_valid_state) ++ [EvShellScreenshot 0%nat true].
Proof.
  split.
  - apply (proj1 (Screenshot_spec demo_invalid_env 0%nat true demo_invalid_state)).
    reflexivity.
  - apply (proj2 (Screenshot_spec demo_valid_env 0%nat true demo_valid_state)).
    + exact demo_valid_state_reachable.
    + reflexivity.
Defined.

(** C7 along the history [demo_steps]. *)
Lemma is_valid_fixed_by_construction_witness :
  (is_valid_ (this demo_valid_state) = true ↔
   shell_ (this demo_valid_state) ≠ None) ∧
  (is_valid_ (this demo_valid_state) = true ↔
   Shell_Create_outcome demo_valid_env (ctor_runners main_thread initial_world)
     true = AssemblySucceeds) ∧
  IsValid demo_after_steps =
    Ok (is_valid_ (this demo_valid_state), demo_after_steps).
Proof.
  apply (is_valid_fixed_by_construction demo_valid_env main_thread true 5%nat
           initial_world (this demo_valid_state) (world demo_valid_state)
           demo_steps demo_after_steps).
  - vm_compute. reflexivity.
  - vm_compute. reflexivity.
Defined.

(** C8: the check stops a holder that was never constructed, and passes
    on the valid holder. *)
Lemma GetPlatformView_spec_witness :
  GetPlatformView demo_valid_env no_state = Crash (CheckFailed "platform_view_") ∧
  GetPlatformView demo_valid_env demo_valid_state =
    Ok (Some 0%nat, demo_valid_state) ∧
  WeakPtr_bool (world demo_valid_state) (platform_view_ (this demo_valid_state)) =
    true.
Proof.
  split; [|split].
  - apply (proj1 (proj2 (GetPlatformView_spec demo_valid_env no_state)));
      reflexivity.
  - apply (proj1 (proj2 (proj2 (GetPlatformView_spec demo_valid_env
                                  demo_valid_state))
                    demo_valid_state_reachable)).
  - apply (proj2 (proj2 (proj2 (GetPlatformView_spec demo_valid_env
                                  demo_valid_state))
                    demo_valid_state_reachable)).
    reflexivity.
Defined.

(** C9 on the valid holder of [demo_valid_state]. *)
Lemma engine_tasks_skip_dead_engine_witness :
  ∃ sh ui ts,
    shell_ (this demo_valid_state) = Some sh ∧
    ui_thread (thread_host_ (this demo_valid_state)) = Some ui ∧
    queues (world demo_valid_state) !! ui = Some ts ∧
    Launch "main" demo_valid_state =
      Ok (tt, posted ui ts (LaunchTask (Shell_GetEngine sh) "main")
                demo_valid_state) ∧
    SetViewportMetrics (800, 600) demo_valid_state =
      Ok (tt, posted ui ts (ViewportTask (Shell_GetEngine sh) (800, 600))
                demo_valid_state) ∧
    DispatchPointerDataPacket (Some [1; 2]) demo_valid_state =
      Ok (tt, posted ui ts (PointerTask (Shell_GetEngine sh) (Some [1; 2]))
                demo_valid_state) ∧
    ∀ t tid w,
      t ∈ [LaunchTask (Shell_GetEngine sh) "main";
           ViewportTask (Shell_GetEngine sh) (800, 600);
           PointerTask (Shell_GetEngine sh) (Some [1; 2])] →
      WeakPtr_bool w (Shell_GetEngine sh) = false →
      run_task demo_valid_env tid t w = Ok (tt, w).
Proof.
  apply (engine_tasks_skip_dead_engine demo_valid_env demo_valid_state "main"
           (800, 600) (Some [1; 2])).
  - exact demo_valid_state_reachable.
  - reflexivity.
Defined.

(** C10 with a packet that is not null. *)
Lemma DispatchPointerDataPacket_needs_packet_witness :
  ∃ ui ts engine,
    queues (world demo_valid_state) !! ui = Some ts ∧
    DispatchPointerDataPacket (Some [1; 2]) demo_valid_state =
      Ok (tt, posted ui ts (PointerTask engine (Some [1; 2])) demo_valid_state) ∧
    (Some [1; 2] ≠ None →
     ∀ tid w, ∃ w',
       run_task demo_valid_env tid (PointerTask engine (Some [1; 2])) w =
       Ok (tt, w')) ∧
    (Some [1; 2] = None →
     ∀ tid w, WeakPtr_bool w engine = true →
              run_task demo_valid_env tid (PointerTask engine (Some [1; 2])) w =
              Crash (NullDereference "packet")).
Proof.
  apply (DispatchPointerDataPacket_needs_packet demo_valid_env demo_valid_state
           (Some [1; 2])).
  - exact demo_valid_state_reachable.
  - reflexivity.
Defined.

(** A null packet on the valid holder: the call posts the task, and the
    task crashes on the packet when the UI loop reaches it. *)
Example null_packet_crashes_ui_loop :
  ∃ s1,
    DispatchPointerDataPacket None demo_after_steps = Ok (tt, s1) ∧
    pending (world s1) demo_ui = [PointerTask (Some 2%nat) None] ∧
    run_next_task demo_valid_env demo_ui (world s1) =
      Crash (NullDereference "packet").
Proof. eexists. split; [reflexivity|]. split; reflexivity. Qed.

(** The destructor on the holder of [demo_after_steps]: the UI thread ran
    its thread-exit task and detaches from the VM when it is joined; the
    GPU thread never ran its task and does not. *)
Example demo_destruction_trace :
  ∃ s',
    AndroidShellHolder_delete demo_valid_env demo_after_steps = Ok (tt, s') ∧
    trace (world s') =
      trace (world demo_after_steps) ++
      [EvShellReset true; EvThreadHostReset;
       EvDetachFromVM demo_ui; EvThreadJoined demo_ui;
       EvThreadJoined demo_gpu; EvThreadJoined demo_io;
       EvKeyDelete 7 0].
Proof. eexists. split; vm_compute; reflexivity. Qed.

(** ** Concrete runs of the further properties *)

Lemma demo_invalid_state_reachable : reachable demo_invalid_env demo_invalid_state.
Proof.
  change demo_invalid_state
    with (mkState (this demo_invalid_state) (world demo_invalid_state)).
  apply (reachable_new demo_invalid_env main_thread true 5%nat initial_world).
  vm_compute. reflexivity.
Qed.


Lemma GetSettings_returns_constructor_settings_witness :
  GetSettings demo_after_steps = Ok (true, demo_after_steps).
Proof.
  apply (GetSettings_returns_constructor_settings demo_valid_env main_thread
           true 5%nat initial_world (this demo_valid_state)
           (world demo_valid_state) demo_steps demo_after_steps).
  - vm_compute. reflexivity.
  - vm_compute. reflexivity.
Defined.

(** The second construction on the world of [demo_after_steps]: the GPU
    loop of the first holder keeps its two pending tasks. *)
Lemma construction_leaves_other_loops_alone_witness :
  queues (world demo_second_state) !! main_thread ≠ None ∧
  queues (world demo_second_state) !! demo_gpu =
    Some [JniExitTask 7; GpuPriorityTask] ∧
  tls (world demo_second_state) = tls (world demo_after_steps) ∧
  trace (world demo_second_state) = trace (world demo_after_steps).
Proof.
  destruct (construction_leaves_other_loops_alone demo_valid_env main_thread
              false 6%nat (world demo_after_steps) (this demo_second_state)
              (world demo_second_state))
    as (Hself & Hkeep & _ & _ & Htls & _ & Htr).
  { vm_compute. reflexivity. }
  split; [exact Hself|]. split; [|split; [exact Htls|exact Htr]].
  apply Hkeep.
  - vm_compute. intros H. repeat (inversion H as [|? ? ? H']; subst; clear H;
      rename H' into H).
  - vm_compute. reflexivity.
Defined.

Lemma engine_tasks_reach_live_engine_witness :
  ∃ sh e,
    shell_ (this demo_valid_state) = Some sh ∧ Shell_GetEngine sh = Some e ∧
    ∀ sts s2 tid,
      steps demo_valid_env sts demo_valid_state = Ok (tt, s2) →
      run_task demo_valid_env tid (LaunchTask (Shell_GetEngine sh) "main")
        (world s2) =
        Ok (tt, emits (EvEngineRun e "main" (Engine_Run demo_valid_env "main") ::
                       if Engine_Run demo_valid_env "main" then []
                       else [EvLogError "Could not launch engine in configuration."])
                  (world s2)) ∧
      run_task demo_valid_env tid (ViewportTask (Shell_GetEngine sh) (800, 600))
        (world s2) =
        Ok (tt, emits [EvEngineSetViewportMetrics e (800, 600)] (world s2)) ∧
      run_task demo_valid_env tid (PointerTask (Shell_GetEngine sh) (Some [1; 2]))
        (world s2) =
        Ok (tt, emits [EvEngineDispatchPointerDataPacket e [1; 2]] (world s2)).
Proof.
  apply (engine_tasks_reach_live_engine demo_valid_env demo_valid_state "main"
           (800, 600) [1; 2]).
  - exact demo_valid_state_reachable.
  - reflexivity.
Defined.

(** The five calls of [demo_calls] on the valid holder: three tasks behind
    the two that the constructor left on the UI queue, and one call into
    the shell. *)
Lemma calls_post_in_order_witness :
  ∃ sh ts rs s',
    shell_ (this demo_valid_state) = Some sh ∧
    queues (world demo_valid_state) !! ui_runner (shell_task_runners sh) =
      Some ts ∧
    calls demo_valid_env demo_calls demo_valid_state = Ok (rs, s') ∧
    length rs = length demo_calls ∧
    this s' = this demo_valid_state ∧
    queues (world s') =
      <[ui_runner (shell_task_runners sh) := ts ++ omap (call_task sh) demo_calls]>
        (queues (world demo_valid_state)) ∧
    trace (world s') = trace (world demo_valid_state) ++ omap call_event demo_calls.
Proof.
  apply (calls_post_in_order demo_valid_env demo_calls demo_valid_state).
  - exact demo_valid_state_reachable.
  - reflexivity.
Defined.

Example demo_calls_queue :
  ∃ rs s',
    calls demo_valid_env demo_calls demo_valid_state = Ok (rs, s') ∧
    pending (world s') demo_ui =
      [JniExitTask 7; UiPriorityTask;
       LaunchTask (Some 2%nat) "main";
       ViewportTask (Some 2%nat) (800, 600);
       PointerTask (Some 2%nat) (Some [1; 2])].
Proof. eexists _, _. split; vm_compute; reflexivity. Qed.

Lemma invalid_holder_hands_out_dead_handle_witness :
  dchecks_enabled demo_invalid_env = false ∧
  GetPlatformView demo_invalid_env demo_invalid_state =
    Ok (platform_view_ (this demo_invalid_state), demo_invalid_state) ∧
  WeakPtr_bool (world demo_invalid_state)
    (platform_view_ (this demo_invalid_state)) = false.
Proof.
  apply (invalid_holder_hands_out_dead_handle demo_invalid_env demo_invalid_state).
  - exact demo_invalid_state_reachable.
  - reflexivity.
Defined.

Lemma second_holder_has_its_own_threads_witness :
  demo_gpu ∈ hosted_threads (thread_host_ (this demo_valid_state)) ∧
  (demo_gpu ∉ hosted_threads (thread_host_ (this demo_second_state))) ∧
  queues (world demo_after_steps) !! demo_gpu ≠ None ∧
  queues (world demo_second_state) !! demo_gpu =
    queues (world demo_after_steps) !! demo_gpu.
Proof.
  assert (demo_gpu ∈ hosted_threads (thread_host_ (this demo_valid_state)))
    as Hin by (vm_compute; repeat constructor).
  split; [exact Hin|].
  apply (second_holder_has_its_own_threads demo_valid_env main_thread true
           5%nat initial_world (this demo_valid_state) (world demo_valid_state)
           demo_steps demo_after_steps main_thread false 6%nat
           (this demo_second_state) (world demo_second_state)).
  - reflexivity.
  - vm_compute. reflexivity.
  - vm_compute. reflexivity.
  - vm_compute. reflexivity.
  - exact Hin.
Defined.

Example demo_second_threads :
  hosted_threads (thread_host_ (this demo_second_state)) =
  [HostedThread "2" UI; HostedThread "2" GPU; HostedThread "2" IO].
Proof. reflexivity. Qed.


(** Destroying the holder of [demo_after_steps]: the UI thread, which ran
    its thread-exit task, detaches once. *)
Lemma destructor_detaches_armed_threads_witness :
  ∃ s',
    AndroidShellHolder_delete demo_valid_env demo_after_steps = Ok (tt, s') ∧
    detaches demo_ui (trace (world s')) = 1%nat.
Proof.
  destruct (destructor_detaches_armed_threads demo_valid_env demo_after_steps
              demo_ui) as (s' & Hdel & Hcount & _).
  { reflexivity. }
  exists s'. split; [exact Hdel|]. rewrite Hcount. vm_compute. reflexivity.
Defined.
